(** * tfblib: framebuffer session, viewport, compositor and raw keyboard

    A shallow embedding of [src/system_code.c].  The C globals become
    record fields that keep their C names, every function becomes a Rocq
    function that passes the part of the state it touches, and the calls
    into libc ([munmap], [free], [ioctl], [close], [memcpy], [read],
    [tcgetattr], [tcsetattr]) are modelled by what the C code can observe
    of them. *)

From Stdlib Require Import ZArith Lia Bool.
From stdpp Require Import base list strings.

Local Open Scope Z_scope.

(* ===================================================================== *)
(** * Machine integers *)
(* ===================================================================== *)

Module CInt.

(** Unsigned 32-bit and 64-bit arithmetic wraps around. *)
Definition u32 (z : Z) : Z := z mod 2 ^ 32.
Definition u64 (z : Z) : Z := z mod 2 ^ 64.

Definition is_u32 (z : Z) : Prop := 0 <= z < 2 ^ 32.
Definition is_u64 (z : Z) : Prop := 0 <= z < 2 ^ 64.
Definition is_byte (z : Z) : Prop := 0 <= z < 256.

(** Width of an unsigned type whose declaration is not in this file. *)
Inductive width : Set := W32 | W64.

Definition modulus (w : width) : Z :=
  match w with W32 => 2 ^ 32 | W64 => 2 ^ 64 end.

Definition wrap (w : width) (z : Z) : Z := z mod modulus w.

End CInt.

Import CInt.

(** What the C implementation leaves to the platform and to the headers
    that declare the globals.

    - [char_signed]: whether plain [char] is signed (it is on x86 and
      x86-64 Linux, it is not on ARM Linux).
    - [size_width]: the width of the type of [__fb_pitch], declared in a
      header; [__fb_off_y * __fb_pitch] is computed in that width (never
      narrower than [u32]).

    The machine is little-endian, as every x86 and ARM Linux is. *)
Record abi : Set := { char_signed : bool; size_width : width }.

Definition x86_64 : abi := {| char_signed := true; size_width := W64 |}.
Definition arm32 : abi := {| char_signed := false; size_width := W32 |}.

(* ===================================================================== *)
(** * Return codes *)
(* ===================================================================== *)

(** Modelled from the spec: the [TFB_*] return codes are declared in
    [tfblib/tfblib.h]; the code only returns them by name, so they are
    kept as an enumeration of pairwise distinct codes, one per error of the
    taxonomy. *)
Inductive tfb_errors : Set :=
| TFB_SUCCESS
| TFB_ERROR_OPEN_FB
| TFB_ERROR_IOCTL_FB
| TFB_UNSUPPORTED_VIDEO_MODE
| TFB_ASSUMPTION_FAILED
| TFB_ERROR_OPEN_TTY
| TFB_ERROR_TTY_GRAPHIC_MODE
| TFB_MMAP_FB_ERROR
| TFB_OUT_OF_MEMORY
| TFB_INVALID_WINDOW
| TFB_KB_WRONG_MODE
| TFB_KB_MODE_GET_FAILED
| TFB_KB_MODE_SET_FAILED.

(* ===================================================================== *)
(** * Session state *)
(* ===================================================================== *)

(** The fields of [struct fb_var_screeninfo __fbi] ([linux/fb.h]) that are
    read once the device is acquired: the base offset of the visible
    screen, two [__u32]. *)
Record fb_var_screeninfo : Set := {
  xoffset : Z;
  yoffset : Z
}.

(** Modelled from the spec: the globals of the device session other than
    [__fbi], [ttyfd] and [fbfd] are declared in headers ([tfblib/tfblib.h],
    [utils.h]); they are the session of the data model: the mapped region
    (address and length), the shadow buffer (its own allocation, or the
    mapped region itself), the screen dimensions and the byte stride.
    Pointers are addresses ([0] is [NULL]); the handles [ttyfd] and [fbfd]
    are [-1] when not open, as their initialisers say. *)
Record fb_session : Set := {
  __fbi : fb_var_screeninfo;
  __fb_screen_w : Z;
  __fb_screen_h : Z;
  __fb_pitch : Z;
  __fb_pitch_div4 : Z;
  __fb_size : Z;
  __fb_buffer : Z;
  __fb_real_buffer : Z;
  ttyfd : Z;
  fbfd : Z
}.

(** Modelled from the spec: the globals of the active window are declared
    in a header; they are the viewport of the data model, offset, size
    and end coordinates, with the type [u32] of the values that
    [tfb_set_window] assigns to them. *)
Record fb_window : Set := {
  __fb_off_x : Z;
  __fb_off_y : Z;
  __fb_win_w : Z;
  __fb_win_h : Z;
  __fb_win_end_x : Z;
  __fb_win_end_y : Z
}.

(* ===================================================================== *)
(** * Viewport controller *)
(* ===================================================================== *)

Module Viewport.

(** [tfb_set_window]: the two bound checks are done on the [u32] sums,
    then the six window globals are assigned. *)
Definition tfb_set_window (g : fb_session) (x y w h : Z) (win : fb_window)
  : tfb_errors * fb_window :=
  if u32 (x + w) >? __fb_screen_w g then (TFB_INVALID_WINDOW, win)
  else if u32 (y + h) >? __fb_screen_h g then (TFB_INVALID_WINDOW, win)
  else
    let off_x := u32 (xoffset (__fbi g) + x) in
    let off_y := u32 (yoffset (__fbi g) + y) in
    (TFB_SUCCESS,
     {| __fb_off_x := off_x;
        __fb_off_y := off_y;
        __fb_win_w := w;
        __fb_win_h := h;
        __fb_win_end_x := u32 (off_x + w);
        __fb_win_end_y := u32 (off_y + h) |}).

(** The arguments are [u32] values. *)
Definition u32_args (x y w h : Z) : Prop :=
  is_u32 x /\ is_u32 y /\ is_u32 w /\ is_u32 h.

(** So are the screen size and the base offset of the device. *)
Definition u32_screen (g : fb_session) : Prop :=
  is_u32 (__fb_screen_w g) /\ is_u32 (__fb_screen_h g) /\
  is_u32 (xoffset (__fbi g)) /\ is_u32 (yoffset (__fbi g)).

(** The window lies on the screen, and its end is its offset plus its
    size. *)
Record window_in_screen (g : fb_session) (win : fb_window) : Prop := {
  in_left : xoffset (__fbi g) <= __fb_off_x win;
  in_top : yoffset (__fbi g) <= __fb_off_y win;
  in_width : 0 <= __fb_win_w win;
  in_height : 0 <= __fb_win_h win;
  in_right : __fb_off_x win + __fb_win_w win
             <= xoffset (__fbi g) + __fb_screen_w g;
  in_bottom : __fb_off_y win + __fb_win_h win
              <= yoffset (__fbi g) + __fb_screen_h g;
  in_end_x : __fb_win_end_x win = __fb_off_x win + __fb_win_w win;
  in_end_y : __fb_win_end_y win = __fb_off_y win + __fb_win_h win
}.

(** A 1024x768 screen with no base offset. *)
Definition screen_1024x768 : fb_session :=
  {| __fbi := {| xoffset := 0; yoffset := 0 |};
     __fb_screen_w := 1024; __fb_screen_h := 768;
     __fb_pitch := 4096; __fb_pitch_div4 := 1024;
     __fb_size := 3145728;
     __fb_buffer := 0x20000000; __fb_real_buffer := 0x10000000;
     ttyfd := 4; fbfd := 3 |}.

(** The window that acquisition installs on that screen. *)
Definition full_window : fb_window :=
  {| __fb_off_x := 0; __fb_off_y := 0;
     __fb_win_w := 1024; __fb_win_h := 768;
     __fb_win_end_x := 1024; __fb_win_end_y := 768 |}.

End Viewport.

(* ===================================================================== *)
(** * Session teardown *)
(* ===================================================================== *)

Module Release.

(** The calls [tfb_release_fb] makes into libc and the kernel. *)
Inductive call : Set :=
| Munmap (addr len : Z)
| Free (ptr : Z)
| IoctlKdSetModeText (fd : Z)
| Close (fd : Z).

(** [tfb_release_fb]: four guarded blocks; no global is assigned.  The
    result is the sequence of calls made and the session afterwards. *)
Definition tfb_release_fb (g : fb_session) : list call * fb_session :=
  let unmap :=
    if negb (__fb_real_buffer g =? 0)
    then [Munmap (__fb_real_buffer g) (__fb_size g)] else [] in
  let release_shadow :=
    if negb (__fb_buffer g =? __fb_real_buffer g)
    then [Free (__fb_buffer g)] else [] in
  let release_tty :=
    if negb (ttyfd g =? -1)
    then [IoctlKdSetModeText (ttyfd g); Close (ttyfd g)] else [] in
  let release_fb :=
    if negb (fbfd g =? -1) then [Close (fbfd g)] else [] in
  (unmap ++ release_shadow ++ release_tty ++ release_fb, g).

(** The claim "a second call is a no-op", as a property of a session. *)
Definition second_release_is_noop (g : fb_session) : Prop :=
  fst (tfb_release_fb (snd (tfb_release_fb g))) = [].

(** A session with nothing held: the values of the globals before any
    acquisition. *)
Definition nothing_held (g : fb_session) : Prop :=
  __fb_real_buffer g = 0 /\ __fb_buffer g = __fb_real_buffer g /\
  ttyfd g = -1 /\ fbfd g = -1.

End Release.

(* ===================================================================== *)
(** * Compositor *)
(* ===================================================================== *)

Module Compositor.

(** Byte-addressed memory. *)
Definition memory : Type := Z -> Z.

(** One [memcpy (dest, src, n)]. *)
Record memcpy_call : Set := MemCpy { mc_dest : Z; mc_src : Z; mc_n : Z }.

Definition memcpy (c : memcpy_call) (m : memory) : memory :=
  fun a =>
    if (mc_dest c <=? a) && (a <? mc_dest c + mc_n c)
    then m (mc_src c + (a - mc_dest c))
    else m a.

Definition run (calls : list memcpy_call) (m : memory) : memory :=
  fold_left (fun m c => memcpy c m) calls m.

Definition bytes_copied (calls : list memcpy_call) : Z :=
  fold_right (fun c acc => mc_n c + acc) 0 calls.

(** The body of the [for] loop, [rows] iterations left.  [dest] and [src]
    are [u32 *], so [+= __fb_pitch_div4] moves them by four times as
    many bytes. *)
Fixpoint flush_rows (rows : nat) (dest src win_pitch pitch_div4 : Z)
  : list memcpy_call :=
  match rows with
  | O => []
  | S rows' =>
      MemCpy dest src win_pitch
      :: flush_rows rows' (dest + 4 * pitch_div4) (src + 4 * pitch_div4)
           win_pitch pitch_div4
  end.

(** [tfb_flush_window], as the sequence of [memcpy] calls it makes. *)
Definition tfb_flush_window (a : abi) (g : fb_session) (win : fb_window)
  : list memcpy_call :=
  if __fb_buffer g =? __fb_real_buffer g then []
  else
    let row0 := wrap (size_width a) (__fb_off_y win * __fb_pitch g) in
    let col0 := u32 (Z.shiftl (__fb_off_x win) 2) in
    let dest := __fb_real_buffer g + row0 + col0 in
    let src := __fb_buffer g + row0 + col0 in
    let win_pitch := u32 (Z.shiftl (__fb_win_w win) 2) in
    flush_rows (Z.to_nat (__fb_win_h win)) dest src win_pitch
      (__fb_pitch_div4 g).

(** Its effect on memory. *)
Definition flush (a : abi) (g : fb_session) (win : fb_window) (m : memory)
  : memory :=
  run (tfb_flush_window a g win) m.

(** The session is in shadow mode, its two buffers of [__fb_size] bytes
    do not overlap, sizes fit 32 bits, the stride is a whole number of
    pixels, and the window lies inside the buffer. *)
Record shadow_session_ok (g : fb_session) (win : fb_window) : Prop := {
  ok_shadow : __fb_buffer g <> __fb_real_buffer g;
  ok_disjoint :
    __fb_buffer g + __fb_size g <= __fb_real_buffer g \/
    __fb_real_buffer g + __fb_size g <= __fb_buffer g;
  ok_size : __fb_size g < 2 ^ 32;
  ok_pitch : __fb_pitch g < 2 ^ 32;
  ok_stride : __fb_pitch g = 4 * __fb_pitch_div4 g;
  ok_off_x : 0 <= __fb_off_x win;
  ok_off_y : 0 <= __fb_off_y win;
  ok_win_w : 0 <= __fb_win_w win;
  ok_win_h : 0 <= __fb_win_h win;
  ok_cols : 4 * (__fb_off_x win + __fb_win_w win) <= __fb_pitch g;
  ok_rows : (__fb_off_y win + __fb_win_h win) * __fb_pitch g <= __fb_size g
}.

(** A device whose visible screen, placed at its base offset, lies
    inside both buffers. *)
Record device_ok (g : fb_session) : Prop := {
  dev_shadow : __fb_buffer g <> __fb_real_buffer g;
  dev_disjoint :
    __fb_buffer g + __fb_size g <= __fb_real_buffer g \/
    __fb_real_buffer g + __fb_size g <= __fb_buffer g;
  dev_size : __fb_size g < 2 ^ 32;
  dev_pitch : 0 < __fb_pitch g < 2 ^ 32;
  dev_stride : __fb_pitch g = 4 * __fb_pitch_div4 g;
  dev_cols : 4 * (xoffset (__fbi g) + __fb_screen_w g) <= __fb_pitch g;
  dev_rows :
    (yoffset (__fbi g) + __fb_screen_h g) * __fb_pitch g <= __fb_size g
}.

(** The mapped region filled with [0xAA], everything else with [0x55]. *)
Definition sentinel_memory : memory :=
  fun a =>
    if (0x10000000 <=? a) && (a <? 0x10000000 + 3145728) then 0xAA else 0x55.

(** The window [x = 100, y = 50, w = 800, h = 600]. *)
Definition window_800x600 : fb_window :=
  {| __fb_off_x := 100; __fb_off_y := 50;
     __fb_win_w := 800; __fb_win_h := 600;
     __fb_win_end_x := 900; __fb_win_end_y := 650 |}.

(** The first part of C4 as it is stated, for one session and window:
    the flush copies [width * height * 4] bytes, all of them from the
    shadow buffer to the mapped region. *)
Definition flush_as_stated (a : abi) (g : fb_session) (win : fb_window)
  : Prop :=
  bytes_copied (tfb_flush_window a g win)
    = __fb_win_w win * __fb_win_h win * 4 /\
  forall c, c ∈ tfb_flush_window a g win ->
    __fb_real_buffer g <= mc_dest c /\
    mc_dest c + mc_n c <= __fb_real_buffer g + __fb_size g /\
    __fb_buffer g <= mc_src c /\
    mc_src c + mc_n c <= __fb_buffer g + __fb_size g.

(** A window five rows high and no pixel wide. *)
Definition thin_window : fb_window :=
  {| __fb_off_x := 10; __fb_off_y := 10;
     __fb_win_w := 0; __fb_win_h := 5;
     __fb_win_end_x := 10; __fb_win_end_y := 15 |}.

(** Address of byte [c] of row [r] of the window, from a buffer base. *)
Definition window_byte (g : fb_session) (win : fb_window) (base r c : Z) : Z :=
  base + (__fb_off_y win + r) * __fb_pitch g + 4 * __fb_off_x win + c.

End Compositor.

(* ===================================================================== *)
(** * Terminal mode controller *)
(* ===================================================================== *)

Module Terminal.

(** [struct termios]; the flag words are [unsigned int]. *)
Record termios : Set := {
  c_iflag : Z;
  c_oflag : Z;
  c_cflag : Z;
  c_lflag : Z;
  c_line : Z;
  c_cc : list Z;
  c_ispeed : Z;
  c_ospeed : Z
}.

(** Input and local flag bits, with their Linux values. *)
Definition BRKINT : Z := 0x2.
Definition INPCK : Z := 0x10.
Definition ISTRIP : Z := 0x20.
Definition IXON : Z := 0x400.
Definition ISIG : Z := 0x1.
Definition ICANON : Z := 0x2.
Definition ECHO : Z := 0x8.
Definition IEXTEN : Z := 0x8000.

(** [flags &= ~mask] on an [unsigned int]. *)
Definition clear_bits (flags mask : Z) : Z :=
  Z.land flags (u32 (Z.lnot mask)).

(** The two static variables of the controller. *)
Record kb_state : Set := {
  orig_termios : termios;
  tfb_kb_raw_mode : bool
}.

Definition zero_termios : termios :=
  {| c_iflag := 0; c_oflag := 0; c_cflag := 0; c_lflag := 0;
     c_line := 0; c_cc := replicate 32 0; c_ispeed := 0; c_ospeed := 0 |}.

(** Static storage is zero-initialised. *)
Definition kb_initial : kb_state :=
  {| orig_termios := zero_termios; tfb_kb_raw_mode := false |}.

Section Controller.

(** The terminal behind descriptor 0 and the two calls on it:
    [tcgetattr (0, &t)] gives the attributes or fails;
    [tcsetattr (0, TCSAFLUSH, &t)] gives the terminal afterwards or
    fails. *)
Context {tty : Type}.
Variable tcgetattr : tty -> option termios.
Variable tcsetattr : termios -> tty -> option tty.

Definition raw_of (t : termios) : termios :=
  {| c_iflag :=
       clear_bits (c_iflag t)
         (Z.lor (Z.lor (Z.lor BRKINT INPCK) ISTRIP) IXON);
     c_oflag := c_oflag t;
     c_cflag := c_cflag t;
     c_lflag :=
       clear_bits (c_lflag t)
         (Z.lor (Z.lor (Z.lor ECHO ICANON) IEXTEN) ISIG);
     c_line := c_line t;
     c_cc := c_cc t;
     c_ispeed := c_ispeed t;
     c_ospeed := c_ospeed t |}.

Definition tfb_set_kb_raw_mode (k : kb_state) (w : tty)
  : tfb_errors * kb_state * tty :=
  if tfb_kb_raw_mode k then (TFB_KB_WRONG_MODE, k, w)
  else
    match tcgetattr w with
    | None => (TFB_KB_MODE_GET_FAILED, k, w)
    | Some orig =>
        let k1 := {| orig_termios := orig;
                     tfb_kb_raw_mode := tfb_kb_raw_mode k |} in
        match tcsetattr (raw_of orig) w with
        | None => (TFB_KB_MODE_SET_FAILED, k1, w)
        | Some w' =>
            (TFB_SUCCESS,
             {| orig_termios := orig; tfb_kb_raw_mode := true |}, w')
        end
    end.

Definition tfb_restore_kb_mode (k : kb_state) (w : tty)
  : tfb_errors * kb_state * tty :=
  if negb (tfb_kb_raw_mode k) then (TFB_KB_WRONG_MODE, k, w)
  else
    match tcsetattr (orig_termios k) w with
    | None => (TFB_KB_MODE_SET_FAILED, k, w)
    | Some w' =>
        (TFB_SUCCESS,
         {| orig_termios := orig_termios k; tfb_kb_raw_mode := false |},
         w')
    end.

End Controller.

(** A terminal that is just its attributes, on which both calls
    succeed. *)
Definition plain_tcgetattr (w : termios) : option termios := Some w.
Definition plain_tcsetattr (t : termios) (_ : termios) : option termios :=
  Some t.

(** Descriptor 0 is not a terminal: both calls fail. *)
Definition notty_tcgetattr (w : unit) : option termios := None.
Definition notty_tcsetattr (t : termios) (w : unit) : option unit := None.

(** The calls a program makes on the controller, run one after the other
    on such a terminal. *)
Inductive kb_op : Set := EnterRaw | Restore.

Definition kb_step (st : kb_state * termios) (op : kb_op)
  : kb_state * termios :=
  match op with
  | EnterRaw =>
      let r := tfb_set_kb_raw_mode plain_tcgetattr plain_tcsetattr
                 (fst st) (snd st) in
      (snd (fst r), snd r)
  | Restore =>
      let r := tfb_restore_kb_mode plain_tcsetattr (fst st) (snd st) in
      (snd (fst r), snd r)
  end.

Definition kb_run (ops : list kb_op) (st : kb_state * termios)
  : kb_state * termios :=
  fold_left kb_step ops st.

(** The flags that raw mode turns off. *)
Definition raw_iflag_mask : Z := Z.lor (Z.lor (Z.lor BRKINT INPCK) ISTRIP) IXON.
Definition raw_lflag_mask : Z := Z.lor (Z.lor (Z.lor ECHO ICANON) IEXTEN) ISIG.

Definition cooked : termios :=
  {| c_iflag := 0x6d02; c_oflag := 0x5; c_cflag := 0x4bf; c_lflag := 0x8a3b;
     c_line := 0; c_cc := replicate 32 0; c_ispeed := 15; c_ospeed := 15 |}.

End Terminal.

(* ===================================================================== *)
(** * Keypress decoder *)
(* ===================================================================== *)

Module Keyboard.

(** Standard input, as the outcomes of the successive [read (0, &c, 1)]:
    [Some b] delivers the byte [b], [None] is a read that returns [<= 0].
    Reading past the end of the list is end of input. *)
Definition stdin : Type := list (option Z).

Definition read (inp : stdin) : option Z * stdin :=
  match inp with
  | [] => (None, [])
  | r :: rest => (r, rest)
  end.

Section Decoder.

Variable a : abi.

(** The value of a [char] holding byte [b]. *)
Definition char_of_byte (b : Z) : Z :=
  if char_signed a && (128 <=? b) then b - 256 else b.

(** The byte a [char] occupies in memory. *)
Definition byte_of_char (c : Z) : Z := c mod 256.

(** Little-endian value of a sequence of bytes. *)
Fixpoint le_bytes (bs : list Z) : Z :=
  match bs with
  | [] => 0
  | b :: bs' => b + 256 * le_bytes bs'
  end.

(** [*(uint64_t * )buf] for a [char buf[8]], on a little-endian
    machine. *)
Definition load_u64 (buf : list Z) : Z :=
  le_bytes (byte_of_char <$> take 8 buf).

Definition ESC : Z := 0x1B.
Definition LBRACKET : Z := 0x5B.

(** [0x40 <= c && c <= 0x7E && c != '['] *)
Definition is_final (c : Z) : bool :=
  (0x40 <=? c) && (c <=? 0x7E) && negb (c =? LBRACKET).

(** The [while (1)] loop of [read_esc_seq], one iteration for each
    outcome of [read]. *)
Fixpoint esc_loop (inp : stdin) (buf : list Z) (len : nat) : Z * stdin :=
  match inp with
  | [] => (0, [])
  | None :: rest => (0, rest)
  | Some b :: rest =>
      let c := char_of_byte b in
      let buf := <[len := c]> buf in
      let len := S len in
      if is_final c then (load_u64 buf, rest)
      else if (len =? 8)%nat then (0, rest)
      else esc_loop rest buf len
  end.

Definition read_esc_seq (inp : stdin) : Z * stdin :=
  let buf := <[0%nat := ESC]> (replicate 8 0) in
  match read inp with
  | (None, rest) => (0, rest)
  | (Some b, rest) =>
      let c := char_of_byte b in
      if negb (c =? LBRACKET) then (0, rest)
      else esc_loop rest (<[1%nat := c]> buf) 2
  end.

(** [tfb_read_keypress]; [return c] converts the [char] to
    [uint64_t]. *)
Definition tfb_read_keypress (inp : stdin) : Z * stdin :=
  match read inp with
  | (None, rest) => (0, rest)
  | (Some b, rest) =>
      let c := char_of_byte b in
      if negb (c =? ESC) then (u64 c, rest)
      else read_esc_seq rest
  end.

(** [tfb_fn_key_seq_char]. *)
Definition tfb_fn_key_seq_char : list (list Z) :=
  [ [ESC; LBRACKET; LBRACKET; 0x41; 0; 0; 0; 0];
    [ESC; LBRACKET; LBRACKET; 0x42; 0; 0; 0; 0];
    [ESC; LBRACKET; LBRACKET; 0x43; 0; 0; 0; 0];
    [ESC; LBRACKET; LBRACKET; 0x44; 0; 0; 0; 0];
    [ESC; LBRACKET; LBRACKET; 0x45; 0; 0; 0; 0];
    [ESC; LBRACKET; 0x31; 0x37; 0x7E; 0; 0; 0];
    [ESC; LBRACKET; 0x31; 0x38; 0x7E; 0; 0; 0];
    [ESC; LBRACKET; 0x31; 0x39; 0x7E; 0; 0; 0];
    [ESC; LBRACKET; 0x32; 0x30; 0x7E; 0; 0; 0];
    [ESC; LBRACKET; 0x32; 0x31; 0x7E; 0; 0; 0];
    [ESC; LBRACKET; 0x32; 0x33; 0x7E; 0; 0; 0];
    [ESC; LBRACKET; 0x32; 0x34; 0x7E; 0; 0; 0] ].

(** [tfb_fn_key_sequences[i]]: the table read as [uint64_t]. *)
Definition tfb_fn_key_sequences (i : Z) : Z :=
  load_u64 (tfb_fn_key_seq_char !!! Z.to_nat i).

(** The [for] loop of [tfb_get_fn_key_num] from index [i], with
    [todo = 12 - i] iterations left. *)
Fixpoint fn_key_search (todo : nat) (i : Z) (k : Z) : Z :=
  match todo with
  | O => 0
  | S todo' =>
      if tfb_fn_key_sequences i =? k then i + 1
      else fn_key_search todo' (i + 1) k
  end.

Definition tfb_get_fn_key_num (k : Z) : Z := fn_key_search 12 0 k.

(** The bytes a terminal sends for the key of a table row: the row
    without its zero padding. *)
Definition key_bytes (row : list Z) : list Z :=
  filter (fun b => b <> 0) row.

(** A byte that does not end an escape sequence. *)
Definition intermediate (b : Z) : Prop := is_byte b /\ is_final b = false.

(** A byte that ends one. *)
Definition final (b : Z) : Prop := is_byte b /\ is_final b = true.

(** The bytes [bs] followed by zero bytes, eight in all. *)
Definition pad8 (bs : list Z) : list Z :=
  bs ++ replicate (8 - length bs) 0.

(** Input that delivers the bytes [bs], then goes on as [rest]. *)
Definition typed (bs : list Z) (rest : stdin) : stdin :=
  (Some <$> bs) ++ rest.

End Decoder.

(** Standard input delivers bytes. *)
Definition bytes_only (inp : stdin) : Prop :=
  Forall (fun r => forall b, r = Some b -> is_byte b) inp.

(** The bytes of a complete escape sequence: [ESC], ['['], the
    intermediate bytes [mids] and the final byte [t]. *)
Definition escape_sequence (mids : list Z) (t : Z) : list Z :=
  ESC :: LBRACKET :: mids ++ [t].

(** One that fits the buffer. *)
Definition complete (mids : list Z) (t : Z) : Prop :=
  Forall intermediate mids /\ final t /\ (length mids <= 5)%nat.

End Keyboard.

(* ===================================================================== *)
(** * Session acquisition *)
(* ===================================================================== *)

Module Acquire.

Import Viewport Release.

(** [struct fb_bitfield] ([linux/fb.h]). *)
Record fb_bitfield : Set := {
  bf_offset : Z;
  bf_length : Z;
  bf_msb_right : Z
}.

(** The fields of [__fbi] other than the base offset that acquisition
    reads. *)
Record fb_mode : Set := {
  xres : Z;
  yres : Z;
  bits_per_pixel : Z;
  red : fb_bitfield;
  green : fb_bitfield;
  blue : fb_bitfield
}.

(** Modelled from the spec: the pixel format globals are declared in a
    header; they are the pixel format descriptor of the data model: for
    each channel its bit offset, its bit width and the derived mask. *)
Record fb_format : Set := {
  __fb_r_pos : Z; __fb_r_mask_size : Z; __fb_r_mask : Z;
  __fb_g_pos : Z; __fb_g_mask_size : Z; __fb_g_mask : Z;
  __fb_b_pos : Z; __fb_b_mask_size : Z; __fb_b_mask : Z
}.

(** All the globals [tfb_acquire_fb] assigns: the struct [__fbi] is
    [__fbi (session g)] together with [mode g]. *)
Record fb_globals : Set := {
  session : fb_session;
  window : fb_window;
  mode : fb_mode;
  format : fb_format
}.

(** The answers of the system to the calls of one acquisition:
    - [open (path, O_RDWR)] for the device and for the terminal: a
      descriptor, or a negative number;
    - [ioctl (fbfd, FBIOGET_FSCREENINFO, _)]: [line_length], or [None] when
      the call returns nonzero;
    - [ioctl (fbfd, FBIOGET_VSCREENINFO, &__fbi)]: the new [__fbi], or
      [None];
    - [ioctl (ttyfd, KDSETMODE, KD_GRAPHICS)]: its return value;
    - [mmap (NULL, length, _, MAP_SHARED, fd, 0)]: an address, or
      [MAP_FAILED];
    - [malloc (size)]: a pointer, or [NULL]. *)
Record os : Type := {
  os_open_fb : string -> Z;
  os_fscreeninfo : option Z;
  os_vscreeninfo : option (fb_var_screeninfo * fb_mode);
  os_open_tty : string -> Z;
  os_kd_graphics : Z;
  os_mmap : Z -> Z -> Z;
  os_malloc : Z -> Z
}.

Definition DEFAULT_FB_DEVICE : string := "/dev/fb0".
Definition DEFAULT_TTY_DEVICE : string := "/dev/tty".

(** [(void * ) -1] *)
Definition MAP_FAILED : Z := -1.

(** [check_fb_assumptions] *)
Definition check_fb_assumptions (md : fb_mode) : bool :=
  (bf_msb_right (red md) =? 0) && (bf_msb_right (green md) =? 0)
  && (bf_msb_right (blue md) =? 0).

(** [((1 << size) - 1) << pos], stored in a [u32]: the value for a width
    of at most 30 bits and a shift count below 32, the left shift of the
    [int] wrapping around as gcc defines it (C leaves larger widths and
    counts undefined). *)
Definition channel_mask (size pos : Z) : Z :=
  u32 (Z.shiftl (Z.shiftl 1 size - 1) pos).

Definition format_of (md : fb_mode) : fb_format :=
  {| __fb_r_pos := bf_offset (red md);
     __fb_r_mask_size := bf_length (red md);
     __fb_r_mask := channel_mask (bf_length (red md)) (bf_offset (red md));
     __fb_g_pos := bf_offset (green md);
     __fb_g_mask_size := bf_length (green md);
     __fb_g_mask := channel_mask (bf_length (green md)) (bf_offset (green md));
     __fb_b_pos := bf_offset (blue md);
     __fb_b_mask_size := bf_length (blue md);
     __fb_b_mask := channel_mask (bf_length (blue md)) (bf_offset (blue md)) |}.

(** Assignments to the globals of the session. *)
Definition set_fbfd (fd : Z) (s : fb_session) : fb_session :=
  {| __fbi := __fbi s;
     __fb_screen_w := __fb_screen_w s; __fb_screen_h := __fb_screen_h s;
     __fb_pitch := __fb_pitch s; __fb_pitch_div4 := __fb_pitch_div4 s;
     __fb_size := __fb_size s;
     __fb_buffer := __fb_buffer s; __fb_real_buffer := __fb_real_buffer s;
     ttyfd := ttyfd s; fbfd := fd |}.

Definition set_ttyfd (fd : Z) (s : fb_session) : fb_session :=
  {| __fbi := __fbi s;
     __fb_screen_w := __fb_screen_w s; __fb_screen_h := __fb_screen_h s;
     __fb_pitch := __fb_pitch s; __fb_pitch_div4 := __fb_pitch_div4 s;
     __fb_size := __fb_size s;
     __fb_buffer := __fb_buffer s; __fb_real_buffer := __fb_real_buffer s;
     ttyfd := fd; fbfd := fbfd s |}.

Definition set_geometry (off : fb_var_screeninfo) (pitch size div4 : Z)
  (s : fb_session) : fb_session :=
  {| __fbi := off;
     __fb_screen_w := __fb_screen_w s; __fb_screen_h := __fb_screen_h s;
     __fb_pitch := pitch; __fb_pitch_div4 := div4;
     __fb_size := size;
     __fb_buffer := __fb_buffer s; __fb_real_buffer := __fb_real_buffer s;
     ttyfd := ttyfd s; fbfd := fbfd s |}.

Definition set_real_buffer (p : Z) (s : fb_session) : fb_session :=
  {| __fbi := __fbi s;
     __fb_screen_w := __fb_screen_w s; __fb_screen_h := __fb_screen_h s;
     __fb_pitch := __fb_pitch s; __fb_pitch_div4 := __fb_pitch_div4 s;
     __fb_size := __fb_size s;
     __fb_buffer := __fb_buffer s; __fb_real_buffer := p;
     ttyfd := ttyfd s; fbfd := fbfd s |}.

Definition set_buffer (p : Z) (s : fb_session) : fb_session :=
  {| __fbi := __fbi s;
     __fb_screen_w := __fb_screen_w s; __fb_screen_h := __fb_screen_h s;
     __fb_pitch := __fb_pitch s; __fb_pitch_div4 := __fb_pitch_div4 s;
     __fb_size := __fb_size s;
     __fb_buffer := p; __fb_real_buffer := __fb_real_buffer s;
     ttyfd := ttyfd s; fbfd := fbfd s |}.

Definition set_screen (w h : Z) (s : fb_session) : fb_session :=
  {| __fbi := __fbi s;
     __fb_screen_w := w; __fb_screen_h := h;
     __fb_pitch := __fb_pitch s; __fb_pitch_div4 := __fb_pitch_div4 s;
     __fb_size := __fb_size s;
     __fb_buffer := __fb_buffer s; __fb_real_buffer := __fb_real_buffer s;
     ttyfd := ttyfd s; fbfd := fbfd s |}.

(** The label [out]: teardown unless [ret] is [TFB_SUCCESS].  The result
    is the return value, the globals and the calls of the teardown. *)
Definition out (ret : tfb_errors) (s : fb_session) (win : fb_window)
  (md : fb_mode) (fmt : fb_format)
  : tfb_errors * fb_globals * list call :=
  let g := {| session := s; window := win; mode := md; format := fmt |} in
  match ret with
  | TFB_SUCCESS => (ret, g, [])
  | _ => (ret, g, fst (tfb_release_fb s))
  end.

Section Acquisition.

Variable a : abi.

(** The two flag bits, defined in [tfblib/tfblib.h]. *)
Variables TFB_FL_NO_TTY_KD_GRAPHICS TFB_FL_USE_SHADOW_BUFFER : Z.

Definition flag_set (flags bit : Z) : bool := negb (Z.land flags bit =? 0).

(** From the [mmap] on.  The call that picks the default font comes last
    and assigns none of these globals. *)
Definition acquire_buffers (flags : Z) (o : os) (s : fb_session)
  (win : fb_window) (md : fb_mode) (fmt : fb_format)
  : tfb_errors * fb_globals * list call :=
  let s := set_real_buffer (os_mmap o (__fb_size s) (fbfd s)) s in
  if __fb_real_buffer s =? MAP_FAILED then out TFB_MMAP_FB_ERROR s win md fmt
  else
    let s :=
      if flag_set flags TFB_FL_USE_SHADOW_BUFFER
      then set_buffer (os_malloc o (__fb_size s)) s
      else set_buffer (__fb_real_buffer s) s in
    if flag_set flags TFB_FL_USE_SHADOW_BUFFER && (__fb_buffer s =? 0)
    then out TFB_OUT_OF_MEMORY s win md fmt
    else
      let s := set_screen (xres md) (yres md) s in
      let fmt := format_of md in
      let win :=
        snd (tfb_set_window s 0 0 (__fb_screen_w s) (__fb_screen_h s) win) in
      out TFB_SUCCESS s win md fmt.

(** [tfb_acquire_fb] *)
Definition tfb_acquire_fb (flags : Z) (fb_device tty_device : option string)
  (o : os) (g : fb_globals) : tfb_errors * fb_globals * list call :=
  let fb_device := default DEFAULT_FB_DEVICE fb_device in
  let tty_device := default DEFAULT_TTY_DEVICE tty_device in
  let win := window g in
  let fmt := format g in
  let s := set_fbfd (os_open_fb o fb_device) (session g) in
  if fbfd s <? 0 then out TFB_ERROR_OPEN_FB s win (mode g) fmt
  else
    match os_fscreeninfo o with
    | None => out TFB_ERROR_IOCTL_FB s win (mode g) fmt
    | Some line_length =>
        match os_vscreeninfo o with
        | None => out TFB_ERROR_IOCTL_FB s win (mode g) fmt
        | Some (off, md) =>
            let pitch := line_length in
            let s :=
              set_geometry off pitch (wrap (size_width a) (pitch * yres md))
                (Z.shiftr pitch 2) s in
            if negb (bits_per_pixel md =? 32)
            then out TFB_UNSUPPORTED_VIDEO_MODE s win md fmt
            else if negb (check_fb_assumptions md)
            then out TFB_ASSUMPTION_FAILED s win md fmt
            else if negb (flag_set flags TFB_FL_NO_TTY_KD_GRAPHICS)
            then
              let s := set_ttyfd (os_open_tty o tty_device) s in
              if ttyfd s <? 0 then out TFB_ERROR_OPEN_TTY s win md fmt
              else if negb (os_kd_graphics o =? 0)
              then out TFB_ERROR_TTY_GRAPHIC_MODE s win md fmt
              else acquire_buffers flags o s win md fmt
            else acquire_buffers flags o s win md fmt
        end
    end.

(** The session on which an acquisition that gets as far runs
    [acquire_buffers]. *)
Definition prepared (flags : Z) (fb_device tty_device : option string)
  (o : os) (g : fb_globals) (off : fb_var_screeninfo) (md : fb_mode)
  : fb_session :=
  let s1 := set_fbfd (os_open_fb o (default DEFAULT_FB_DEVICE fb_device))
              (session g) in
  let pitch := default 0 (os_fscreeninfo o) in
  let s2 := set_geometry off pitch (wrap (size_width a) (pitch * yres md))
              (Z.shiftr pitch 2) s1 in
  if flag_set flags TFB_FL_NO_TTY_KD_GRAPHICS then s2
  else set_ttyfd (os_open_tty o (default DEFAULT_TTY_DEVICE tty_device)) s2.

End Acquisition.

(** The calls [tfb_acquire_fb] itself makes, before any teardown. *)
Inductive sys_call : Set :=
| OpenDevice (path : string)
| IoctlFScreenInfo (fd : Z)
| IoctlVScreenInfo (fd : Z)
| OpenTerminal (path : string)
| IoctlKdSetModeGraphics (fd : Z)
| Mmap (len fd : Z)
| Malloc (size : Z).

(** The calls that concern the terminal. *)
Definition terminal_call (c : sys_call) : bool :=
  match c with
  | OpenTerminal _ | IoctlKdSetModeGraphics _ => true
  | _ => false
  end.

Section AcquisitionCalls.

Variable a : abi.
Variables TFB_FL_NO_TTY_KD_GRAPHICS TFB_FL_USE_SHADOW_BUFFER : Z.

(** The calls of [acquire_buffers]: [mmap], then [malloc] if the mapping
    succeeded and a shadow buffer is asked for. *)
Definition acquire_buffers_calls (flags : Z) (o : os) (s : fb_session)
  : list sys_call :=
  Mmap (__fb_size s) (fbfd s)
  :: (if os_mmap o (__fb_size s) (fbfd s) =? MAP_FAILED then []
      else if flag_set flags TFB_FL_USE_SHADOW_BUFFER
           then [Malloc (__fb_size s)] else []).

(** The calls of [tfb_acquire_fb], in the order of the code, up to the
    first one that fails. *)
Definition tfb_acquire_fb_calls (flags : Z)
  (fb_device tty_device : option string) (o : os) (g : fb_globals)
  : list sys_call :=
  let fb_path := default DEFAULT_FB_DEVICE fb_device in
  let tty_path := default DEFAULT_TTY_DEVICE tty_device in
  let fd := os_open_fb o fb_path in
  OpenDevice fb_path
  :: (if fd <? 0 then []
      else
        IoctlFScreenInfo fd
        :: match os_fscreeninfo o with
           | None => []
           | Some _ =>
               IoctlVScreenInfo fd
               :: match os_vscreeninfo o with
                  | None => []
                  | Some (off, md) =>
                      let s :=
                        prepared a TFB_FL_NO_TTY_KD_GRAPHICS flags
                          fb_device tty_device o g off md in
                      if negb (bits_per_pixel md =? 32) then []
                      else if negb (check_fb_assumptions md) then []
                      else if negb (flag_set flags TFB_FL_NO_TTY_KD_GRAPHICS)
                      then
                        OpenTerminal tty_path
                        :: (if os_open_tty o tty_path <? 0 then []
                            else
                              IoctlKdSetModeGraphics (os_open_tty o tty_path)
                              :: (if negb (os_kd_graphics o =? 0) then []
                                  else
                                    acquire_buffers_calls flags o s))
                      else acquire_buffers_calls flags o s
                  end
           end).

End AcquisitionCalls.

(** The globals before the first acquisition: no buffer, no handle. *)
Definition pristine (s : fb_session) : Prop :=
  __fb_real_buffer s = 0 /\ __fb_buffer s = 0 /\ ttyfd s = -1 /\ fbfd s = -1.

(** The fields of [__fbi] are [__u32]. *)
Definition u32_mode (off : fb_var_screeninfo) (md : fb_mode) : Prop :=
  is_u32 (xres md) /\ is_u32 (yres md) /\
  is_u32 (xoffset off) /\ is_u32 (yoffset off).

(** The window that covers the screen of the session. *)
Definition screen_window (s : fb_session) : fb_window :=
  {| __fb_off_x := xoffset (__fbi s);
     __fb_off_y := yoffset (__fbi s);
     __fb_win_w := __fb_screen_w s;
     __fb_win_h := __fb_screen_h s;
     __fb_win_end_x := u32 (xoffset (__fbi s) + __fb_screen_w s);
     __fb_win_end_y := u32 (yoffset (__fbi s) + __fb_screen_h s) |}.

(** A 1024x768 XRGB8888 device and a system on which every call
    succeeds. *)
Definition xrgb8888 : fb_mode :=
  {| xres := 1024; yres := 768; bits_per_pixel := 32;
     red := {| bf_offset := 16; bf_length := 8; bf_msb_right := 0 |};
     green := {| bf_offset := 8; bf_length := 8; bf_msb_right := 0 |};
     blue := {| bf_offset := 0; bf_length := 8; bf_msb_right := 0 |} |}.

Definition good_os : os :=
  {| os_open_fb := fun _ => 3;
     os_fscreeninfo := Some 4096;
     os_vscreeninfo := Some ({| xoffset := 0; yoffset := 0 |}, xrgb8888);
     os_open_tty := fun _ => 4;
     os_kd_graphics := 0;
     os_mmap := fun _ _ => 0x10000000;
     os_malloc := fun _ => 0x20000000 |}.

(** The same system, out of address space for the mapping. *)
Definition no_mmap_os : os :=
  {| os_open_fb := fun _ => 3;
     os_fscreeninfo := Some 4096;
     os_vscreeninfo := Some ({| xoffset := 0; yoffset := 0 |}, xrgb8888);
     os_open_tty := fun _ => 4;
     os_kd_graphics := 0;
     os_mmap := fun _ _ => MAP_FAILED;
     os_malloc := fun _ => 0x20000000 |}.

(** A 1024x768 device in a 16 bits per pixel mode. *)
Definition rgb565 : fb_mode :=
  {| xres := 1024; yres := 768; bits_per_pixel := 16;
     red := {| bf_offset := 11; bf_length := 5; bf_msb_right := 0 |};
     green := {| bf_offset := 5; bf_length := 6; bf_msb_right := 0 |};
     blue := {| bf_offset := 0; bf_length := 5; bf_msb_right := 0 |} |}.

Definition rgb565_os : os :=
  {| os_open_fb := fun _ => 3;
     os_fscreeninfo := Some 2048;
     os_vscreeninfo := Some ({| xoffset := 0; yoffset := 0 |}, rgb565);
     os_open_tty := fun _ => 4;
     os_kd_graphics := 0;
     os_mmap := fun _ _ => 0x10000000;
     os_malloc := fun _ => 0x20000000 |}.

Definition zero_format : fb_format :=
  {| __fb_r_pos := 0; __fb_r_mask_size := 0; __fb_r_mask := 0;
     __fb_g_pos := 0; __fb_g_mask_size := 0; __fb_g_mask := 0;
     __fb_b_pos := 0; __fb_b_mask_size := 0; __fb_b_mask := 0 |}.

Definition zero_mode : fb_mode :=
  {| xres := 0; yres := 0; bits_per_pixel := 0;
     red := {| bf_offset := 0; bf_length := 0; bf_msb_right := 0 |};
     green := {| bf_offset := 0; bf_length := 0; bf_msb_right := 0 |};
     blue := {| bf_offset := 0; bf_length := 0; bf_msb_right := 0 |} |}.

(** The globals at program start. *)
Definition start : fb_globals :=
  {| session :=
       {| __fbi := {| xoffset := 0; yoffset := 0 |};
          __fb_screen_w := 0; __fb_screen_h := 0;
          __fb_pitch := 0; __fb_pitch_div4 := 0; __fb_size := 0;
          __fb_buffer := 0; __fb_real_buffer := 0;
          ttyfd := -1; fbfd := -1 |};
     window :=
       {| __fb_off_x := 0; __fb_off_y := 0; __fb_win_w := 0; __fb_win_h := 0;
          __fb_win_end_x := 0; __fb_win_end_y := 0 |};
     mode := zero_mode;
     format := zero_format |}.

(** The same device panned down by sixteen lines: the visible screen
    starts at line 16 of the video memory. *)
Definition panned_os : os :=
  {| os_open_fb := fun _ => 3;
     os_fscreeninfo := Some 4096;
     os_vscreeninfo := Some ({| xoffset := 0; yoffset := 16 |}, xrgb8888);
     os_open_tty := fun _ => 4;
     os_kd_graphics := 0;
     os_mmap := fun _ _ => 0x10000000;
     os_malloc := fun _ => 0x20000000 |}.

(** The globals that an acquisition with a shadow buffer leaves on it. *)
Definition panned : fb_globals :=
  {| session :=
       {| __fbi := {| xoffset := 0; yoffset := 16 |};
          __fb_screen_w := 1024; __fb_screen_h := 768;
          __fb_pitch := 4096; __fb_pitch_div4 := 1024;
          __fb_size := 3145728;
          __fb_buffer := 0x20000000; __fb_real_buffer := 0x10000000;
          ttyfd := 4; fbfd := 3 |};
     window :=
       {| __fb_off_x := 0; __fb_off_y := 16;
          __fb_win_w := 1024; __fb_win_h := 768;
          __fb_win_end_x := 1024; __fb_win_end_y := 784 |};
     mode := xrgb8888; format := format_of xrgb8888 |}.

(** The globals that acquisition leaves on that system. *)
Definition acquired : fb_globals :=
  {| session := screen_1024x768; window := full_window;
     mode := xrgb8888; format := format_of xrgb8888 |}.

(** An acquisition with a shadow buffer on that system, from program
    start, with flag bits 1 (no terminal) and 2 (shadow buffer). *)
Definition good_run : tfb_errors * fb_globals * list call :=
  tfb_acquire_fb x86_64 1 2 2 None None good_os start.

(** The same without a shadow buffer, and the same without address
    space. *)
Definition zero_copy_run : tfb_errors * fb_globals * list call :=
  tfb_acquire_fb x86_64 1 2 0 None None good_os start.

Definition failed_run : tfb_errors * fb_globals * list call :=
  tfb_acquire_fb x86_64 1 2 2 None None no_mmap_os start.

Definition panned_run : tfb_errors * fb_globals * list call :=
  tfb_acquire_fb x86_64 1 2 2 None None panned_os start.

(** And with the terminal left alone. *)
Definition no_tty_run : tfb_errors * fb_globals * list call :=
  tfb_acquire_fb x86_64 1 2 3 None None good_os start.

End Acquire.

(* ===================================================================== *)
(** * Properties: machine integers *)
(* ===================================================================== *)

Section CIntFacts.

Lemma u32_small z : is_u32 z -> u32 z = z.
Proof. unfold is_u32, u32. intros H. apply Z.mod_small. lia. Qed.

Lemma u32_range z : is_u32 (u32 z).
Proof. unfold is_u32, u32. apply Z.mod_pos_bound. lia. Qed.

Lemma u64_small z : is_u64 z -> u64 z = z.
Proof. unfold is_u64, u64. intros H. apply Z.mod_small. lia. Qed.

Lemma wrap_small w z : 0 <= z < 2 ^ 32 -> wrap w z = z.
Proof.
  intros H. unfold wrap. apply Z.mod_small.
  destruct w; simpl; lia.
Qed.

Lemma shiftl2 z : Z.shiftl z 2 = 4 * z.
Proof. rewrite Z.shiftl_mul_pow2 by lia. lia. Qed.

End CIntFacts.

(* ===================================================================== *)
(** * Properties: viewport controller *)
(* ===================================================================== *)

Module ViewportFacts.

Import Viewport.

(** Whenever one of the two comparisons of the code fails, the window is
    refused and nothing is stored. *)
Lemma set_window_refused g x y w h win :
  u32 (x + w) > __fb_screen_w g \/ u32 (y + h) > __fb_screen_h g ->
  tfb_set_window g x y w h win = (TFB_INVALID_WINDOW, win).
Proof.
  intros H. unfold tfb_set_window.
  destruct (u32 (x + w) >? __fb_screen_w g) eqn:Ex; [reflexivity|].
  destruct (u32 (y + h) >? __fb_screen_h g) eqn:Ey; [reflexivity|].
  rewrite Z.gtb_ltb in Ex, Ey.
  apply Z.ltb_ge in Ex. apply Z.ltb_ge in Ey. lia.
Qed.

(** A window that leaves the screen is refused as long as its right and
    bottom edges are themselves [u32] values. *)
Lemma set_window_out_of_screen g x y w h win :
  x + w < 2 ^ 32 -> y + h < 2 ^ 32 -> 0 <= x + w -> 0 <= y + h ->
  x + w > __fb_screen_w g \/ y + h > __fb_screen_h g ->
  tfb_set_window g x y w h win = (TFB_INVALID_WINDOW, win).
Proof.
  intros Hx Hy Hx0 Hy0 H. apply set_window_refused.
  rewrite !u32_small by (unfold is_u32; lia). exact H.
Qed.

(** C2, on the code: the window [x = 4294967295, w = 2] on a screen that
    is 1024 pixels wide has [x + w = 4294967297], far beyond the screen
    width, yet the [u32] sum wraps to 1, the call returns [TFB_SUCCESS]
    and the window is stored, with its end before its start. *)
Theorem set_window_accepts_wrapped_window :
  4294967295 + 2 > __fb_screen_w screen_1024x768 /\
  tfb_set_window screen_1024x768 4294967295 0 2 768 full_window =
    (TFB_SUCCESS,
     {| __fb_off_x := 4294967295; __fb_off_y := 0;
        __fb_win_w := 2; __fb_win_h := 768;
        __fb_win_end_x := 1; __fb_win_end_y := 768 |}).
Proof. split; [reflexivity | vm_compute; reflexivity]. Qed.

(** The window stored for arguments that fit the screen. *)
Lemma set_window_fits g x y w h win :
  u32_args x y w h -> u32_screen g ->
  x + w <= __fb_screen_w g -> y + h <= __fb_screen_h g ->
  tfb_set_window g x y w h win =
    (TFB_SUCCESS,
     {| __fb_off_x := u32 (xoffset (__fbi g) + x);
        __fb_off_y := u32 (yoffset (__fbi g) + y);
        __fb_win_w := w;
        __fb_win_h := h;
        __fb_win_end_x := u32 (u32 (xoffset (__fbi g) + x) + w);
        __fb_win_end_y := u32 (u32 (yoffset (__fbi g) + y) + h) |}).
Proof.
  intros (Hx & Hy & Hw & Hh) (Hsw & Hsh & Hxo & Hyo) Hxw Hyh.
  unfold is_u32 in *. unfold tfb_set_window.
  rewrite (u32_small (x + w)) by (unfold is_u32; lia).
  rewrite (u32_small (y + h)) by (unfold is_u32; lia).
  replace (x + w >? __fb_screen_w g) with false
    by (symmetry; rewrite Z.gtb_ltb; apply Z.ltb_ge; lia).
  replace (y + h >? __fb_screen_h g) with false
    by (symmetry; rewrite Z.gtb_ltb; apply Z.ltb_ge; lia).
  reflexivity.
Qed.

(** C5: for [u32] arguments with [x + w <= screen width] and
    [y + h <= screen height], [tfb_set_window] returns [TFB_SUCCESS] and
    stores that window: offset = base offset + (x, y), size = (w, h),
    end = offset + size, the sums being those of the 32-bit fields; they
    are the exact sums as soon as the screen placed at the base offset
    fits 32 bits. *)
Theorem set_window_stores_valid_window g x y w h win :
  u32_args x y w h -> u32_screen g ->
  x + w <= __fb_screen_w g -> y + h <= __fb_screen_h g ->
  let r := tfb_set_window g x y w h win in
  fst r = TFB_SUCCESS /\
  __fb_off_x (snd r) = u32 (xoffset (__fbi g) + x) /\
  __fb_off_y (snd r) = u32 (yoffset (__fbi g) + y) /\
  __fb_win_w (snd r) = w /\
  __fb_win_h (snd r) = h /\
  __fb_win_end_x (snd r) = u32 (__fb_off_x (snd r) + __fb_win_w (snd r)) /\
  __fb_win_end_y (snd r) = u32 (__fb_off_y (snd r) + __fb_win_h (snd r)) /\
  (xoffset (__fbi g) + __fb_screen_w g < 2 ^ 32 ->
     __fb_off_x (snd r) = xoffset (__fbi g) + x /\
     __fb_win_end_x (snd r) = xoffset (__fbi g) + x + w) /\
  (yoffset (__fbi g) + __fb_screen_h g < 2 ^ 32 ->
     __fb_off_y (snd r) = yoffset (__fbi g) + y /\
     __fb_win_end_y (snd r) = yoffset (__fbi g) + y + h).
Proof.
  intros (Hx & Hy & Hw & Hh) (Hsw & Hsh & Hxo & Hyo) Hxw Hyh.
  unfold is_u32 in *. unfold tfb_set_window.
  rewrite (u32_small (x + w)) by (unfold is_u32; lia).
  rewrite (u32_small (y + h)) by (unfold is_u32; lia).
  destruct (x + w >? __fb_screen_w g) eqn:Ex.
  { rewrite Z.gtb_ltb in Ex. apply Z.ltb_lt in Ex. lia. }
  destruct (y + h >? __fb_screen_h g) eqn:Ey.
  { rewrite Z.gtb_ltb in Ey. apply Z.ltb_lt in Ey. lia. }
  cbn [fst snd __fb_off_x __fb_off_y __fb_win_w __fb_win_h
       __fb_win_end_x __fb_win_end_y].
  repeat split; try reflexivity.
  - apply u32_small. unfold is_u32. lia.
  - rewrite (u32_small (xoffset (__fbi g) + x)) by (unfold is_u32; lia).
    apply u32_small. unfold is_u32. lia.
  - apply u32_small. unfold is_u32. lia.
  - rewrite (u32_small (yoffset (__fbi g) + y)) by (unfold is_u32; lia).
    apply u32_small. unfold is_u32. lia.
Qed.

Lemma set_window_stores_valid_window_witness :
  u32_args 100 50 800 600 /\ u32_screen screen_1024x768 /\
  100 + 800 <= __fb_screen_w screen_1024x768 /\
  50 + 600 <= __fb_screen_h screen_1024x768 /\
  fst (tfb_set_window screen_1024x768 100 50 800 600 full_window)
    = TFB_SUCCESS.
Proof.
  assert (Ha : u32_args 100 50 800 600).
  { unfold u32_args, is_u32. lia. }
  assert (Hs : u32_screen screen_1024x768).
  { unfold u32_screen, is_u32. simpl. lia. }
  assert (Hw : 100 + 800 <= __fb_screen_w screen_1024x768).
  { simpl. lia. }
  assert (Hh : 50 + 600 <= __fb_screen_h screen_1024x768).
  { simpl. lia. }
  split; [exact Ha | split; [exact Hs | split; [exact Hw | split; [exact Hh |]]]].
  exact (proj1 (set_window_stores_valid_window screen_1024x768
                  100 50 800 600 full_window Ha Hs Hw Hh)).
Defined.

(** X11: as long as the sums [x + w] and [y + h] of the arguments and the
    screen placed at the base offset fit 32 bits, a call of
    [tfb_set_window] keeps the window on the screen: a refused call
    leaves the window as it was, an accepted one stores a window that
    lies on the screen. *)
Theorem set_window_keeps_window_in_screen g x y w h win :
  u32_args x y w h -> u32_screen g ->
  x + w < 2 ^ 32 -> y + h < 2 ^ 32 ->
  xoffset (__fbi g) + __fb_screen_w g < 2 ^ 32 ->
  yoffset (__fbi g) + __fb_screen_h g < 2 ^ 32 ->
  window_in_screen g win ->
  let r := tfb_set_window g x y w h win in
  window_in_screen g (snd r) /\
  (fst r = TFB_INVALID_WINDOW -> snd r = win) /\
  (fst r = TFB_SUCCESS <-> x + w <= __fb_screen_w g /\ y + h <= __fb_screen_h g).
Proof.
  intros Ha Hs Hxw Hyh Hsx Hsy Hin. cbn zeta.
  pose proof Ha as (Hx & Hy & Hw & Hh).
  pose proof Hs as (Hsw & Hsh & Hxo & Hyo).
  unfold is_u32 in *.
  destruct (Z_le_gt_dec (x + w) (__fb_screen_w g)) as [Hfx | Hfx];
    [destruct (Z_le_gt_dec (y + h) (__fb_screen_h g)) as [Hfy | Hfy]|].
  - rewrite (set_window_fits g x y w h win Ha Hs Hfx Hfy). cbn [fst snd].
    rewrite !(u32_small (xoffset (__fbi g) + x)),
            !(u32_small (yoffset (__fbi g) + y)) by (unfold is_u32; lia).
    rewrite !u32_small by (unfold is_u32; lia).
    split; [constructor; cbn; lia|].
    split; [discriminate | tauto].
  - rewrite (set_window_out_of_screen g x y w h win) by lia. cbn [fst snd].
    split; [exact Hin|]. split; [reflexivity|].
    split; [discriminate | lia].
  - rewrite (set_window_out_of_screen g x y w h win) by lia. cbn [fst snd].
    split; [exact Hin|]. split; [reflexivity|].
    split; [discriminate | lia].
Qed.

Lemma set_window_keeps_window_in_screen_witness :
  u32_args 100 50 800 600 /\ u32_screen screen_1024x768 /\
  window_in_screen screen_1024x768 full_window /\
  window_in_screen screen_1024x768
    (snd (tfb_set_window screen_1024x768 100 50 800 600 full_window)).
Proof.
  assert (Ha : u32_args 100 50 800 600).
  { unfold u32_args, is_u32. lia. }
  assert (Hs : u32_screen screen_1024x768).
  { unfold u32_screen, is_u32. simpl. lia. }
  assert (Hin : window_in_screen screen_1024x768 full_window).
  { constructor; cbn; lia. }
  split; [exact Ha | split; [exact Hs | split; [exact Hin|]]].
  exact (proj1 (set_window_keeps_window_in_screen screen_1024x768
                  100 50 800 600 full_window Ha Hs
                  ltac:(lia) ltac:(lia) ltac:(cbn; lia) ltac:(cbn; lia) Hin)).
Defined.

End ViewportFacts.

(* ===================================================================== *)
(** * Properties: session teardown *)
(* ===================================================================== *)

Module ReleaseFacts.

Import Release Viewport.

Lemma release_keeps_session g : snd (tfb_release_fb g) = g.
Proof. reflexivity. Qed.

(** The guards, read off the calls. *)
Lemma release_calls g c :
  c ∈ fst (tfb_release_fb g) ->
  (c = Munmap (__fb_real_buffer g) (__fb_size g) /\ __fb_real_buffer g <> 0) \/
  (c = Free (__fb_buffer g) /\ __fb_buffer g <> __fb_real_buffer g) \/
  ((c = IoctlKdSetModeText (ttyfd g) \/ c = Close (ttyfd g)) /\ ttyfd g <> -1) \/
  (c = Close (fbfd g) /\ fbfd g <> -1).
Proof.
  unfold tfb_release_fb. cbn [fst].
  destruct (__fb_real_buffer g =? 0) eqn:E1;
    destruct (__fb_buffer g =? __fb_real_buffer g) eqn:E2;
    destruct (ttyfd g =? -1) eqn:E3;
    destruct (fbfd g =? -1) eqn:E4;
    cbn [negb app];
    try apply Z.eqb_neq in E1; try apply Z.eqb_neq in E2;
    try apply Z.eqb_neq in E3; try apply Z.eqb_neq in E4;
    intros Hc;
    repeat (apply elem_of_cons in Hc as [-> | Hc]);
    try (apply elem_of_nil in Hc; contradiction);
    tauto.
Qed.

Lemma release_nothing_iff g :
  fst (tfb_release_fb g) = [] <-> nothing_held g.
Proof.
  unfold tfb_release_fb, nothing_held. cbn [fst].
  destruct (__fb_real_buffer g =? 0) eqn:E1;
    destruct (__fb_buffer g =? __fb_real_buffer g) eqn:E2;
    destruct (ttyfd g =? -1) eqn:E3;
    destruct (fbfd g =? -1) eqn:E4;
    cbn [negb app];
    try apply Z.eqb_neq in E1; try apply Z.eqb_neq in E2;
    try apply Z.eqb_neq in E3; try apply Z.eqb_neq in E4;
    try apply Z.eqb_eq in E1; try apply Z.eqb_eq in E2;
    try apply Z.eqb_eq in E3; try apply Z.eqb_eq in E4;
    split; try discriminate; try tauto.
Qed.

(** C1 as stated fails: on the session of a successful acquisition with
    a shadow buffer, the second [tfb_release_fb] unmaps, frees, resets
    the terminal and closes both handles all over again. *)
Lemma release_twice_repeats_calls :
  ~ second_release_is_noop screen_1024x768 /\
  fst (tfb_release_fb (snd (tfb_release_fb screen_1024x768))) =
    [Munmap 0x10000000 3145728; Free 0x20000000;
     IoctlKdSetModeText 4; Close 4; Close 3].
Proof. split; [intros H; discriminate H | reflexivity]. Qed.

(** C1, amended: [tfb_release_fb] makes a call for a resource only when
    its guard marks the resource as held (mapping pointer not [NULL],
    shadow pointer distinct from the mapping, handle not [-1]); it leaves
    the session state as it was, so a second call makes the same calls as
    the first, and it is a no-op exactly when nothing is marked as
    held. *)
Theorem release_guarded_and_state_kept g :
  let calls := fst (tfb_release_fb g) in
  let g' := snd (tfb_release_fb g) in
  (forall p n, Munmap p n ∈ calls ->
     p = __fb_real_buffer g /\ n = __fb_size g /\ __fb_real_buffer g <> 0) /\
  (forall p, Free p ∈ calls ->
     p = __fb_buffer g /\ __fb_buffer g <> __fb_real_buffer g) /\
  (forall fd, IoctlKdSetModeText fd ∈ calls -> fd = ttyfd g /\ ttyfd g <> -1) /\
  (forall fd, Close fd ∈ calls ->
     (fd = ttyfd g /\ ttyfd g <> -1) \/ (fd = fbfd g /\ fbfd g <> -1)) /\
  g' = g /\
  fst (tfb_release_fb g') = calls /\
  (fst (tfb_release_fb g') = [] <-> nothing_held g).
Proof.
  cbn zeta. rewrite release_keeps_session.
  split; [|split; [|split; [|split; [|split; [|split]]]]].
  - intros p n H. apply release_calls in H.
    destruct H as [[H ?]|[[H ?]|[[[H|H] ?]|[H ?]]]];
      try discriminate; injection H as -> ->; tauto.
  - intros p H. apply release_calls in H.
    destruct H as [[H ?]|[[H ?]|[[[H|H] ?]|[H ?]]]];
      try discriminate; injection H as ->; tauto.
  - intros fd H. apply release_calls in H.
    destruct H as [[H ?]|[[H ?]|[[[H|H] ?]|[H ?]]]];
      try discriminate; injection H as ->; tauto.
  - intros fd H. apply release_calls in H.
    destruct H as [[H ?]|[[H ?]|[[[H|H] ?]|[H ?]]]];
      try discriminate; injection H as ->; tauto.
  - reflexivity.
  - reflexivity.
  - apply release_nothing_iff.
Qed.

Lemma release_guarded_and_state_kept_witness :
  Close 3 ∈ fst (tfb_release_fb screen_1024x768) /\
  ((3 = ttyfd screen_1024x768 /\ ttyfd screen_1024x768 <> -1) \/
   (3 = fbfd screen_1024x768 /\ fbfd screen_1024x768 <> -1)).
Proof.
  assert (H : Close 3 ∈ fst (tfb_release_fb screen_1024x768)).
  { apply list_elem_of_In. vm_compute. tauto. }
  split; [exact H|].
  destruct (release_guarded_and_state_kept screen_1024x768)
    as (_ & _ & _ & Hclose & _).
  exact (Hclose 3 H).
Defined.

End ReleaseFacts.

(* ===================================================================== *)
(** * Properties: compositor *)
(* ===================================================================== *)

Module CompositorFacts.

Import Compositor Viewport.

Lemma run_cons c calls m : run (c :: calls) m = run calls (memcpy c m).
Proof. reflexivity. Qed.

Lemma memcpy_inside dest src n m a :
  dest <= a < dest + n ->
  memcpy (MemCpy dest src n) m a = m (src + (a - dest)).
Proof.
  intros H. unfold memcpy. cbn [mc_dest mc_src mc_n].
  replace (dest <=? a) with true by (symmetry; apply Z.leb_le; lia).
  replace (a <? dest + n) with true by (symmetry; apply Z.ltb_lt; lia).
  reflexivity.
Qed.

Lemma memcpy_outside dest src n m a :
  ~ (dest <= a < dest + n) ->
  memcpy (MemCpy dest src n) m a = m a.
Proof.
  intros H. unfold memcpy. cbn [mc_dest mc_src mc_n].
  destruct (dest <=? a) eqn:E1; [|reflexivity].
  destruct (a <? dest + n) eqn:E2; [|reflexivity].
  apply Z.leb_le in E1. apply Z.ltb_lt in E2. lia.
Qed.

Section Rows.

(** One row is [n] bytes, rows are [4 * d4] bytes apart. *)
Variables n d4 : Z.
Hypothesis n_fits : 0 <= n <= 4 * d4.

Lemma flush_rows_length rows dest src :
  length (flush_rows rows dest src n d4) = rows.
Proof.
  revert dest src. induction rows as [|k IH]; intros; simpl; [|rewrite IH];
    reflexivity.
Qed.

Lemma flush_rows_lookup rows dest src (r : nat) :
  (r < rows)%nat ->
  flush_rows rows dest src n d4 !! r =
    Some (MemCpy (dest + Z.of_nat r * (4 * d4))
                 (src + Z.of_nat r * (4 * d4)) n).
Proof.
  revert dest src r. induction rows as [|k IH]; intros dest src r Hr.
  - lia.
  - destruct r as [|r]; simpl.
    + do 2 f_equal; lia.
    + rewrite IH by lia. do 2 f_equal; lia.
Qed.

Lemma flush_rows_bytes rows dest src :
  bytes_copied (flush_rows rows dest src n d4) = Z.of_nat rows * n.
Proof.
  revert dest src. induction rows as [|k IH]; intros dest src.
  - reflexivity.
  - cbn [flush_rows bytes_copied fold_right mc_n].
    change (fold_right (fun c acc => mc_n c + acc) 0
              (flush_rows k (dest + 4 * d4) (src + 4 * d4) n d4))
      with (bytes_copied (flush_rows k (dest + 4 * d4) (src + 4 * d4) n d4)).
    rewrite IH. lia.
Qed.

(** Frame: an address in none of the destination rows keeps its
    byte. *)
Lemma flush_rows_frame rows dest src m a :
  (forall r, 0 <= r < Z.of_nat rows ->
     ~ (dest + r * (4 * d4) <= a < dest + r * (4 * d4) + n)) ->
  run (flush_rows rows dest src n d4) m a = m a.
Proof.
  revert dest src m. induction rows as [|k IH]; intros dest src m Hout.
  - reflexivity.
  - cbn [flush_rows]. rewrite run_cons. rewrite IH.
    + apply memcpy_outside. specialize (Hout 0). lia.
    + intros r Hr. specialize (Hout (r + 1)). lia.
Qed.

(** Copy: byte [c] of destination row [r] receives the byte of the
    source row, provided no source row overlaps a destination row. *)
Lemma flush_rows_copy rows dest src m r c :
  src + Z.of_nat rows * (4 * d4) <= dest \/
  dest + Z.of_nat rows * (4 * d4) <= src ->
  0 <= r < Z.of_nat rows -> 0 <= c < n ->
  run (flush_rows rows dest src n d4) m (dest + r * (4 * d4) + c)
    = m (src + r * (4 * d4) + c).
Proof.
  revert dest src m r. induction rows as [|k IH];
    intros dest src m r Hdisj Hr Hc.
  - lia.
  - cbn [flush_rows]. rewrite run_cons.
    destruct (Z.eq_dec r 0) as [-> | Hr0].
    + rewrite flush_rows_frame.
      * rewrite memcpy_inside by lia. f_equal. lia.
      * intros r' Hr'. nia.
    + replace (dest + r * (4 * d4) + c)
        with ((dest + 4 * d4) + (r - 1) * (4 * d4) + c) by lia.
      rewrite IH by lia.
      rewrite memcpy_outside by nia.
      f_equal. lia.
Qed.

End Rows.

(** Under [shadow_session_ok] none of the 32-bit computations of
    [tfb_flush_window] wraps. *)
Lemma flush_window_unfold a g win :
  shadow_session_ok g win ->
  tfb_flush_window a g win =
    flush_rows (Z.to_nat (__fb_win_h win))
      (window_byte g win (__fb_real_buffer g) 0 0)
      (window_byte g win (__fb_buffer g) 0 0)
      (4 * __fb_win_w win) (__fb_pitch_div4 g).
Proof.
  intros [].
  unfold tfb_flush_window, window_byte.
  apply Z.eqb_neq in ok_shadow0. rewrite ok_shadow0.
  rewrite !shiftl2.
  rewrite (u32_small (4 * __fb_off_x win)) by (unfold is_u32; lia).
  rewrite (u32_small (4 * __fb_win_w win)) by (unfold is_u32; lia).
  rewrite wrap_small by nia.
  f_equal; lia.
Qed.

(** C4, amended: in a shadow session whose two buffers are disjoint and
    below 4 GiB, whose stride is a whole number of pixels and whose
    window lies inside the buffers ([shadow_session_ok]),
    [tfb_flush_window] makes one [memcpy] per window
    row, of [4 * width] bytes, from the shadow buffer to the mapped
    region at the same offset, consecutive rows one device stride apart;
    [width * height * 4] bytes are copied in all; afterwards every window
    byte of the mapped region holds the shadow byte, and every other
    address holds the byte it held before. *)
Theorem flush_window_copies_viewport_only a g win (m : memory) :
  shadow_session_ok g win ->
  let calls := tfb_flush_window a g win in
  length calls = Z.to_nat (__fb_win_h win) /\
  (forall r : nat, (r < Z.to_nat (__fb_win_h win))%nat ->
     calls !! r =
       Some (MemCpy (window_byte g win (__fb_real_buffer g) (Z.of_nat r) 0)
                    (window_byte g win (__fb_buffer g) (Z.of_nat r) 0)
                    (4 * __fb_win_w win))) /\
  bytes_copied calls = __fb_win_w win * __fb_win_h win * 4 /\
  (forall r c, 0 <= r < __fb_win_h win -> 0 <= c < 4 * __fb_win_w win ->
     flush a g win m (window_byte g win (__fb_real_buffer g) r c)
       = m (window_byte g win (__fb_buffer g) r c)) /\
  (forall addr,
     (forall r c, 0 <= r < __fb_win_h win -> 0 <= c < 4 * __fb_win_w win ->
        addr <> window_byte g win (__fb_real_buffer g) r c) ->
     flush a g win m addr = m addr).
Proof.
  intros Hok. cbn zeta. unfold flush.
  rewrite (flush_window_unfold a g win Hok).
  destruct Hok.
  assert (Hn : 0 <= 4 * __fb_win_w win <= 4 * __fb_pitch_div4 g) by lia.
  split; [|split; [|split; [|split]]].
  - apply flush_rows_length.
  - intros r Hr. rewrite flush_rows_lookup by exact Hr.
    unfold window_byte. do 2 f_equal; lia.
  - rewrite flush_rows_bytes. rewrite Z2Nat.id by lia. lia.
  - intros r c Hr Hc.
    replace (window_byte g win (__fb_real_buffer g) r c)
      with (window_byte g win (__fb_real_buffer g) 0 0
            + r * (4 * __fb_pitch_div4 g) + c)
      by (unfold window_byte; lia).
    assert (Hrows : __fb_win_h win * (4 * __fb_pitch_div4 g) <= __fb_size g)
      by nia.
    rewrite flush_rows_copy.
    + f_equal. unfold window_byte. lia.
    + exact Hn.
    + rewrite Z2Nat.id by lia. unfold window_byte.
      destruct ok_disjoint0; [left | right]; lia.
    + rewrite Z2Nat.id by lia. exact Hr.
    + exact Hc.
  - intros addr Hout. apply flush_rows_frame.
    intros r Hr Hin. rewrite Z2Nat.id in Hr by lia.
    apply (Hout r (addr - window_byte g win (__fb_real_buffer g) r 0));
      unfold window_byte in *; lia.
Qed.

(** Every window that [tfb_set_window] stores for arguments that fit the
    screen of such a device can be flushed. *)
Lemma set_window_then_flush_ok g x y w h win :
  device_ok g -> u32_args x y w h -> u32_screen g ->
  x + w <= __fb_screen_w g -> y + h <= __fb_screen_h g ->
  shadow_session_ok g (snd (tfb_set_window g x y w h win)).
Proof.
  intros [] Ha Hs Hxw Hyh.
  rewrite (ViewportFacts.set_window_fits g x y w h win Ha Hs Hxw Hyh).
  destruct Ha as (Hx & Hy & Hw & Hh).
  destruct Hs as (Hsw & Hsh & Hxo & Hyo).
  unfold is_u32 in *. cbn [snd].
  assert (Hox : u32 (xoffset (__fbi g) + x) = xoffset (__fbi g) + x)
    by (apply u32_small; unfold is_u32; lia).
  assert (Hoy : u32 (yoffset (__fbi g) + y) = yoffset (__fbi g) + y).
  { apply u32_small. unfold is_u32.
    assert (yoffset (__fbi g) + __fb_screen_h g
            <= (yoffset (__fbi g) + __fb_screen_h g) * __fb_pitch g) by nia.
    lia. }
  constructor;
    cbn [__fb_off_x __fb_off_y __fb_win_w __fb_win_h];
    rewrite ?Hox, ?Hoy; try assumption; try lia.
  nia.
Qed.

Lemma flush_window_copies_viewport_only_witness :
  shadow_session_ok screen_1024x768 window_800x600 /\
  bytes_copied (tfb_flush_window x86_64 screen_1024x768 window_800x600)
    = 800 * 600 * 4 /\
  flush x86_64 screen_1024x768 window_800x600 sentinel_memory 0x10000000
    = 0xAA.
Proof.
  assert (Hok : shadow_session_ok screen_1024x768 window_800x600).
  { constructor; cbn; lia. }
  destruct (flush_window_copies_viewport_only x86_64 screen_1024x768
              window_800x600 sentinel_memory Hok)
    as (_ & _ & Hbytes & _ & Hframe).
  split; [exact Hok | split; [exact Hbytes |]].
  apply (Hframe 0x10000000).
  intros r c Hr Hc. unfold window_byte. cbn in *. lia.
Defined.

(** An address lies in one of the destination rows, or in none. *)
Lemma in_rows_dec n d4 (rows : nat) dest a :
  (exists r, 0 <= r < Z.of_nat rows /\
             dest + r * (4 * d4) <= a < dest + r * (4 * d4) + n) \/
  (forall r, 0 <= r < Z.of_nat rows ->
             ~ (dest + r * (4 * d4) <= a < dest + r * (4 * d4) + n)).
Proof.
  induction rows as [|k IH].
  - right. intros r Hr. lia.
  - destruct IH as [(r & Hr & Hin) | Hout].
    + left. exists r. split; [lia | exact Hin].
    + destruct (Z_le_gt_dec (dest + Z.of_nat k * (4 * d4)) a) as [Hlo | Hlo];
        [destruct (Z_lt_le_dec a (dest + Z.of_nat k * (4 * d4) + n))
           as [Hhi | Hhi]|].
      * left. exists (Z.of_nat k). split; lia.
      * right. intros r Hr Hin.
        destruct (Z.eq_dec r (Z.of_nat k)) as [-> | Hne];
          [lia | apply (Hout r); [lia | exact Hin]].
      * right. intros r Hr Hin.
        destruct (Z.eq_dec r (Z.of_nat k)) as [-> | Hne];
          [lia | apply (Hout r); [lia | exact Hin]].
Qed.

(** The rows of the window, in either buffer, lie inside the buffer. *)
Lemma window_row_inside g win base r :
  shadow_session_ok g win -> 0 <= r < __fb_win_h win ->
  base <= window_byte g win base r 0 /\
  window_byte g win base r 0 + 4 * __fb_win_w win <= base + __fb_size g.
Proof.
  intros [] Hr. unfold window_byte.
  assert (0 <= __fb_pitch g) by lia.
  assert ((__fb_off_y win + r) * __fb_pitch g + __fb_pitch g
          <= (__fb_off_y win + __fb_win_h win) * __fb_pitch g) by nia.
  assert (0 <= (__fb_off_y win + r) * __fb_pitch g) by nia.
  lia.
Qed.

(** X12: under the conditions of a shadow session every [memcpy] that a
    flush makes reads inside the shadow buffer and writes inside the
    mapped region. *)
Theorem flush_calls_stay_inside_buffers a g win c :
  shadow_session_ok g win ->
  c ∈ tfb_flush_window a g win ->
  __fb_real_buffer g <= mc_dest c /\
  mc_dest c + mc_n c <= __fb_real_buffer g + __fb_size g /\
  __fb_buffer g <= mc_src c /\
  mc_src c + mc_n c <= __fb_buffer g + __fb_size g /\
  mc_src c - __fb_buffer g = mc_dest c - __fb_real_buffer g.
Proof.
  intros Hok Hin.
  rewrite (flush_window_unfold a g win Hok) in Hin.
  apply list_elem_of_lookup in Hin as [i Hi].
  assert (Hlt : (i < Z.to_nat (__fb_win_h win))%nat).
  { apply lookup_lt_Some in Hi. rewrite flush_rows_length in Hi. exact Hi. }
  rewrite flush_rows_lookup in Hi by exact Hlt.
  injection Hi as <-. cbn [mc_dest mc_src mc_n].
  assert (Hr : 0 <= Z.of_nat i < __fb_win_h win) by lia.
  pose proof (window_row_inside g win (__fb_real_buffer g) _ Hok Hr) as Hd.
  pose proof (window_row_inside g win (__fb_buffer g) _ Hok Hr) as Hs.
  destruct Hok. unfold window_byte in *. lia.
Qed.

Lemma flush_calls_stay_inside_buffers_witness :
  shadow_session_ok screen_1024x768 window_800x600 /\
  MemCpy (0x10000000 + 50 * 4096 + 400) (0x20000000 + 50 * 4096 + 400) 3200
    ∈ tfb_flush_window x86_64 screen_1024x768 window_800x600 /\
  0x10000000 <= 0x10000000 + 50 * 4096 + 400.
Proof.
  assert (Hok : shadow_session_ok screen_1024x768 window_800x600).
  { constructor; cbn; lia. }
  assert (Hin : MemCpy (0x10000000 + 50 * 4096 + 400)
                  (0x20000000 + 50 * 4096 + 400) 3200
                ∈ tfb_flush_window x86_64 screen_1024x768 window_800x600).
  { rewrite (flush_window_unfold _ _ _ Hok).
    apply list_elem_of_lookup. exists 0%nat. reflexivity. }
  split; [exact Hok | split; [exact Hin|]].
  exact (proj1 (flush_calls_stay_inside_buffers x86_64 screen_1024x768
                  window_800x600 _ Hok Hin)).
Defined.

(** X13: a flush changes no byte outside the mapped region; in
    particular the shadow buffer is as it was. *)
Theorem flush_changes_mapped_region_only a g win (m : memory) addr :
  shadow_session_ok g win ->
  ~ (__fb_real_buffer g <= addr < __fb_real_buffer g + __fb_size g) ->
  flush a g win m addr = m addr.
Proof.
  intros Hok Hout. unfold flush.
  rewrite (flush_window_unfold a g win Hok).
  apply flush_rows_frame.
  intros r Hr Hin. rewrite Z2Nat.id in Hr by (destruct Hok; lia).
  pose proof (window_row_inside g win (__fb_real_buffer g) r Hok Hr) as Hd.
  replace (window_byte g win (__fb_real_buffer g) 0 0
           + r * (4 * __fb_pitch_div4 g))
    with (window_byte g win (__fb_real_buffer g) r 0) in Hin
    by (destruct Hok; unfold window_byte; lia).
  lia.
Qed.

Lemma flush_changes_mapped_region_only_witness :
  shadow_session_ok screen_1024x768 window_800x600 /\
  ~ (__fb_real_buffer screen_1024x768 <= 0x20000000
     < __fb_real_buffer screen_1024x768 + __fb_size screen_1024x768) /\
  flush x86_64 screen_1024x768 window_800x600 sentinel_memory 0x20000000
    = 0x55.
Proof.
  assert (Hok : shadow_session_ok screen_1024x768 window_800x600).
  { constructor; cbn; lia. }
  assert (Hout : ~ (__fb_real_buffer screen_1024x768 <= 0x20000000
                    < __fb_real_buffer screen_1024x768
                      + __fb_size screen_1024x768)).
  { cbn. lia. }
  split; [exact Hok | split; [exact Hout|]].
  exact (flush_changes_mapped_region_only x86_64 screen_1024x768
           window_800x600 sentinel_memory 0x20000000 Hok Hout).
Defined.

(** X14: flushing twice in a row gives the memory that flushing once
    gives. *)
Theorem flush_twice_is_flush_once a g win (m : memory) addr :
  shadow_session_ok g win ->
  flush a g win (flush a g win m) addr = flush a g win m addr.
Proof.
  intros Hok. unfold flush.
  rewrite (flush_window_unfold a g win Hok).
  set (n := 4 * __fb_win_w win).
  set (d4 := __fb_pitch_div4 g).
  set (rows := Z.to_nat (__fb_win_h win)).
  set (dest := window_byte g win (__fb_real_buffer g) 0 0).
  set (src := window_byte g win (__fb_buffer g) 0 0).
  assert (Hn : 0 <= n <= 4 * d4) by (destruct Hok; subst n d4; lia).
  assert (Hrows : Z.of_nat rows * (4 * d4) <= __fb_size g).
  { destruct Hok. subst rows d4. rewrite Z2Nat.id by lia. nia. }
  assert (Hdisj : src + Z.of_nat rows * (4 * d4) <= dest \/
                  dest + Z.of_nat rows * (4 * d4) <= src).
  { destruct Hok. subst src dest. unfold window_byte.
    destruct ok_disjoint0; [left | right]; lia. }
  destruct (in_rows_dec n d4 rows dest addr) as [(r & Hr & Hin) | Hout].
  - replace addr with (dest + r * (4 * d4) + (addr - (dest + r * (4 * d4))))
      by lia.
    rewrite !(flush_rows_copy n d4 Hn) by (assumption || lia).
    apply flush_rows_frame.
    intros r' Hr' Hin'.
    assert (r * (4 * d4) + 4 * d4 <= Z.of_nat rows * (4 * d4)) by nia.
    assert (r' * (4 * d4) + 4 * d4 <= Z.of_nat rows * (4 * d4)) by nia.
    assert (0 <= r * (4 * d4)) by nia.
    assert (0 <= r' * (4 * d4)) by nia.
    lia.
  - rewrite (flush_rows_frame n d4 rows dest src _ addr Hout). reflexivity.
Qed.

Lemma flush_twice_is_flush_once_witness :
  shadow_session_ok screen_1024x768 window_800x600 /\
  flush x86_64 screen_1024x768 window_800x600
    (flush x86_64 screen_1024x768 window_800x600 sentinel_memory) 0x10000000
  = flush x86_64 screen_1024x768 window_800x600 sentinel_memory 0x10000000.
Proof.
  assert (Hok : shadow_session_ok screen_1024x768 window_800x600).
  { constructor; cbn; lia. }
  split; [exact Hok|].
  exact (flush_twice_is_flush_once x86_64 screen_1024x768 window_800x600
           sentinel_memory 0x10000000 Hok).
Defined.

(** X15: flushing a window of width 0 or of height 0 changes no byte,
    whatever the session. *)
Theorem flush_empty_window_changes_nothing a g win (m : memory) addr :
  __fb_win_w win = 0 \/ __fb_win_h win = 0 ->
  flush a g win m addr = m addr.
Proof.
  intros Hempty. unfold flush, tfb_flush_window.
  destruct (__fb_buffer g =? __fb_real_buffer g); [reflexivity|].
  destruct Hempty as [Hw | Hh].
  - rewrite Hw. change (u32 (Z.shiftl 0 2)) with 0.
    apply flush_rows_frame. intros r Hr. lia.
  - rewrite Hh. reflexivity.
Qed.

Lemma flush_empty_window_changes_nothing_witness :
  (__fb_win_w thin_window = 0 \/ __fb_win_h thin_window = 0) /\
  flush x86_64 screen_1024x768 thin_window sentinel_memory 0x10000000 = 0xAA.
Proof.
  assert (H : __fb_win_w thin_window = 0 \/ __fb_win_h thin_window = 0).
  { left. reflexivity. }
  split; [exact H|].
  exact (flush_empty_window_changes_nothing x86_64 screen_1024x768
           thin_window sentinel_memory 0x10000000 H).
Defined.

End CompositorFacts.

(* ===================================================================== *)
(** * Properties: terminal mode controller *)
(* ===================================================================== *)

Module TerminalFacts.

Import Terminal.

Section Controller.

Context {tty : Type}.
Variable tcgetattr : tty -> option termios.
Variable tcsetattr : termios -> tty -> option tty.


Lemma enter_raw_success_sets_flag k w k1 w1 :
  tfb_set_kb_raw_mode tcgetattr tcsetattr k w = (TFB_SUCCESS, k1, w1) ->
  tfb_kb_raw_mode k = false /\ tfb_kb_raw_mode k1 = true /\
  tcgetattr w = Some (orig_termios k1).
Proof.
  unfold tfb_set_kb_raw_mode.
  destruct (tfb_kb_raw_mode k); [discriminate|].
  destruct (tcgetattr w) as [orig|]; [|discriminate].
  destruct (tcsetattr (raw_of orig) w) as [w'|]; [|discriminate].
  intros [= <- <-]. auto.
Qed.

Lemma enter_raw_failure_keeps_flag k w r k1 w1 :
  tfb_set_kb_raw_mode tcgetattr tcsetattr k w = (r, k1, w1) ->
  r <> TFB_SUCCESS ->
  tfb_kb_raw_mode k1 = tfb_kb_raw_mode k /\ w1 = w.
Proof.
  unfold tfb_set_kb_raw_mode.
  destruct (tfb_kb_raw_mode k) eqn:E.
  - intros [= <- <- <-] _. auto.
  - destruct (tcgetattr w) as [orig|].
    + destruct (tcsetattr (raw_of orig) w) as [w'|].
      * intros [= <- <- <-] H. congruence.
      * intros [= <- <- <-] _. auto.
    + intros [= <- <- <-] _. auto.
Qed.

(** C7: [tfb_set_kb_raw_mode] in raw mode returns [TFB_KB_WRONG_MODE]
    and changes neither the saved snapshot nor the terminal, so a call
    right after a successful one fails that way; [tfb_restore_kb_mode]
    out of raw mode returns [TFB_KB_WRONG_MODE], as it does when no
    [tfb_set_kb_raw_mode] came before, or only one that failed. *)
Theorem kb_wrong_mode (k : kb_state) (w : tty) :
  (tfb_kb_raw_mode k = true ->
     tfb_set_kb_raw_mode tcgetattr tcsetattr k w = (TFB_KB_WRONG_MODE, k, w)) /\
  (forall k1 w1,
     tfb_set_kb_raw_mode tcgetattr tcsetattr k w = (TFB_SUCCESS, k1, w1) ->
     tfb_set_kb_raw_mode tcgetattr tcsetattr k1 w1
       = (TFB_KB_WRONG_MODE, k1, w1)) /\
  (tfb_kb_raw_mode k = false ->
     tfb_restore_kb_mode tcsetattr k w = (TFB_KB_WRONG_MODE, k, w)) /\
  tfb_restore_kb_mode tcsetattr kb_initial w
    = (TFB_KB_WRONG_MODE, kb_initial, w) /\
  (forall r k1 w1,
     tfb_set_kb_raw_mode tcgetattr tcsetattr kb_initial w = (r, k1, w1) ->
     r <> TFB_SUCCESS ->
     tfb_restore_kb_mode tcsetattr k1 w1 = (TFB_KB_WRONG_MODE, k1, w1)).
Proof.
  split; [|split; [|split; [|split]]].
  - intros H. unfold tfb_set_kb_raw_mode. rewrite H. reflexivity.
  - intros k1 w1 H.
    apply enter_raw_success_sets_flag in H as (_ & H & _).
    unfold tfb_set_kb_raw_mode. rewrite H. reflexivity.
  - intros H. unfold tfb_restore_kb_mode. rewrite H. reflexivity.
  - reflexivity.
  - intros r k1 w1 H Hr.
    apply enter_raw_failure_keeps_flag in H as [H _]; [|exact Hr].
    unfold tfb_restore_kb_mode. rewrite H. reflexivity.
Qed.

End Controller.

Lemma kb_wrong_mode_witness :
  tfb_set_kb_raw_mode plain_tcgetattr plain_tcsetattr kb_initial cooked =
    (TFB_SUCCESS,
     {| orig_termios := cooked; tfb_kb_raw_mode := true |}, raw_of cooked) /\
  tfb_set_kb_raw_mode plain_tcgetattr plain_tcsetattr
    {| orig_termios := cooked; tfb_kb_raw_mode := true |} (raw_of cooked) =
    (TFB_KB_WRONG_MODE,
     {| orig_termios := cooked; tfb_kb_raw_mode := true |}, raw_of cooked).
Proof.
  assert (H : tfb_set_kb_raw_mode plain_tcgetattr plain_tcsetattr
                kb_initial cooked =
              (TFB_SUCCESS,
               {| orig_termios := cooked; tfb_kb_raw_mode := true |},
               raw_of cooked)).
  { reflexivity. }
  split; [exact H|].
  exact (proj1 (proj2 (kb_wrong_mode plain_tcgetattr plain_tcsetattr
                         kb_initial cooked)) _ _ H).
Defined.

(** Entering raw mode and restoring gives the terminal its attributes
    back, and the controller is out of raw mode again. *)
Lemma raw_mode_round_trip (k : kb_state) (w : termios) :
  tfb_kb_raw_mode k = false ->
  exists k1 k2,
    tfb_set_kb_raw_mode plain_tcgetattr plain_tcsetattr k w
      = (TFB_SUCCESS, k1, raw_of w) /\
    tfb_restore_kb_mode plain_tcsetattr k1 (raw_of w) = (TFB_SUCCESS, k2, w) /\
    tfb_kb_raw_mode k2 = false.
Proof.
  intros H. unfold tfb_set_kb_raw_mode, tfb_restore_kb_mode. rewrite H.
  cbn. eauto.
Qed.

(** When descriptor 0 is no terminal, raw mode is not entered. *)
Lemma enter_raw_not_a_terminal (k : kb_state) :
  tfb_kb_raw_mode k = false ->
  tfb_set_kb_raw_mode notty_tcgetattr notty_tcsetattr k tt
    = (TFB_KB_MODE_GET_FAILED, k, tt).
Proof.
  intros H. unfold tfb_set_kb_raw_mode. rewrite H. reflexivity.
Qed.

(** Clearing the bits of a 32-bit mask in a 32-bit word, bit by bit. *)
Lemma clear_bits_spec flags mask i :
  is_u32 flags -> 0 <= i ->
  Z.testbit (clear_bits flags mask) i
    = Z.testbit flags i && negb (Z.testbit mask i).
Proof.
  intros Hf Hi. unfold clear_bits, u32. rewrite Z.land_spec.
  destruct (Z_lt_le_dec i 32) as [Hlt | Hge].
  - rewrite Z.mod_pow2_bits_low by lia. rewrite Z.lnot_spec by lia.
    reflexivity.
  - rewrite Z.mod_pow2_bits_high by lia.
    rewrite andb_false_r.
    rewrite <- (Z.mod_small flags (2 ^ 32)) by (unfold is_u32 in Hf; lia).
    rewrite Z.mod_pow2_bits_high by lia. reflexivity.
Qed.

Lemma clear_bits_off flags mask flag :
  Z.land (u32 (Z.lnot mask)) flag = 0 ->
  Z.land (clear_bits flags mask) flag = 0.
Proof.
  intros H. unfold clear_bits. rewrite <- Z.land_assoc, H.
  apply Z.land_0_r.
Qed.

Lemma clear_bits_idem flags mask :
  clear_bits (clear_bits flags mask) mask = clear_bits flags mask.
Proof.
  unfold clear_bits. rewrite <- Z.land_assoc, Z.land_diag. reflexivity.
Qed.

(** X16: the attributes that [tfb_set_kb_raw_mode] applies have the four
    input flags [BRKINT], [INPCK], [ISTRIP], [IXON] and the four local
    flags [ECHO], [ICANON], [IEXTEN], [ISIG] off, every other flag bit as
    in the attributes read, and all other fields unchanged. *)
Theorem raw_of_clears_only_its_flags (t : termios) :
  is_u32 (c_iflag t) -> is_u32 (c_lflag t) ->
  Forall (fun flag => Z.land (c_iflag (raw_of t)) flag = 0)
    [BRKINT; INPCK; ISTRIP; IXON] /\
  Forall (fun flag => Z.land (c_lflag (raw_of t)) flag = 0)
    [ECHO; ICANON; IEXTEN; ISIG] /\
  (forall i, 0 <= i ->
     Z.testbit (c_iflag (raw_of t)) i
       = Z.testbit (c_iflag t) i && negb (Z.testbit raw_iflag_mask i)) /\
  (forall i, 0 <= i ->
     Z.testbit (c_lflag (raw_of t)) i
       = Z.testbit (c_lflag t) i && negb (Z.testbit raw_lflag_mask i)) /\
  c_oflag (raw_of t) = c_oflag t /\ c_cflag (raw_of t) = c_cflag t /\
  c_line (raw_of t) = c_line t /\ c_cc (raw_of t) = c_cc t /\
  c_ispeed (raw_of t) = c_ispeed t /\ c_ospeed (raw_of t) = c_ospeed t /\
  raw_of (raw_of t) = raw_of t.
Proof.
  intros Hi Hl.
  assert (Hbits_i : forall i, 0 <= i ->
            Z.testbit (c_iflag (raw_of t)) i
              = Z.testbit (c_iflag t) i && negb (Z.testbit raw_iflag_mask i)).
  { intros i H. apply clear_bits_spec; assumption. }
  assert (Hbits_l : forall i, 0 <= i ->
            Z.testbit (c_lflag (raw_of t)) i
              = Z.testbit (c_lflag t) i && negb (Z.testbit raw_lflag_mask i)).
  { intros i H. apply clear_bits_spec; assumption. }
  split.
  { repeat apply Forall_cons_2; try apply Forall_nil_2;
      apply clear_bits_off; reflexivity. }
  split.
  { repeat apply Forall_cons_2; try apply Forall_nil_2;
      apply clear_bits_off; reflexivity. }
  split; [exact Hbits_i | split; [exact Hbits_l|]].
  repeat (split; [reflexivity|]).
  unfold raw_of.
  cbn [c_iflag c_oflag c_cflag c_lflag c_line c_cc c_ispeed c_ospeed].
  rewrite !clear_bits_idem. reflexivity.
Qed.

Lemma raw_of_clears_only_its_flags_witness :
  is_u32 (c_iflag cooked) /\ is_u32 (c_lflag cooked) /\
  Z.land (c_lflag (raw_of cooked)) ECHO = 0.
Proof.
  assert (Hi : is_u32 (c_iflag cooked)) by (unfold is_u32; cbn; lia).
  assert (Hl : is_u32 (c_lflag cooked)) by (unfold is_u32; cbn; lia).
  split; [exact Hi | split; [exact Hl|]].
  destruct (raw_of_clears_only_its_flags cooked Hi Hl) as (_ & H & _).
  exact (proj1 (proj1 (Forall_cons _ _ _) H)).
Defined.

(** One call keeps the terminal either as it was at first, out of raw
    mode, or in raw mode with the first attributes saved. *)
Lemma kb_step_invariant w0 st op :
  (tfb_kb_raw_mode (fst st) = false /\ snd st = w0) \/
  (tfb_kb_raw_mode (fst st) = true /\ orig_termios (fst st) = w0 /\
   snd st = raw_of w0) ->
  (tfb_kb_raw_mode (fst (kb_step st op)) = false /\ snd (kb_step st op) = w0) \/
  (tfb_kb_raw_mode (fst (kb_step st op)) = true /\
   orig_termios (fst (kb_step st op)) = w0 /\
   snd (kb_step st op) = raw_of w0).
Proof.
  destruct st as [[orig raw] w]. cbn [fst snd tfb_kb_raw_mode orig_termios].
  intros [[-> ->] | (-> & -> & ->)]; destruct op;
    cbn; auto.
Qed.

(** X17: on a terminal where the two calls succeed, whatever sequence of
    [tfb_set_kb_raw_mode] and [tfb_restore_kb_mode] calls a program
    makes, the terminal ends either with the attributes it had at first,
    out of raw mode, or with their raw version, in raw mode and with the
    first attributes still saved: they are never lost. *)
Theorem kb_calls_never_lose_attributes (ops : list kb_op) (w0 : termios) :
  let st := kb_run ops (kb_initial, w0) in
  (tfb_kb_raw_mode (fst st) = false /\ snd st = w0) \/
  (tfb_kb_raw_mode (fst st) = true /\ orig_termios (fst st) = w0 /\
   snd st = raw_of w0).
Proof.
  cbn zeta. unfold kb_run.
  assert (H0 : (tfb_kb_raw_mode (fst (kb_initial, w0)) = false /\
                snd (kb_initial, w0) = w0) \/
               (tfb_kb_raw_mode (fst (kb_initial, w0)) = true /\
                orig_termios (fst (kb_initial, w0)) = w0 /\
                snd (kb_initial, w0) = raw_of w0)).
  { left. split; reflexivity. }
  revert H0. generalize (kb_initial, w0).
  induction ops as [|op ops IH]; intros st Hst.
  - exact Hst.
  - cbn [fold_left]. apply IH. apply kb_step_invariant. exact Hst.
Qed.

End TerminalFacts.

(* ===================================================================== *)
(** * Properties: keypress decoder *)
(* ===================================================================== *)

Module KeyboardFacts.

Import Keyboard.

(** ** Bytes and [char]s *)

Lemma byte_of_char_of_byte a b :
  is_byte b -> byte_of_char (char_of_byte a b) = b.
Proof.
  unfold is_byte, byte_of_char, char_of_byte. intros Hb.
  destruct (char_signed a && (128 <=? b)).
  - replace (b - 256) with (b + (-1) * 256) by lia.
    rewrite Z.mod_add by lia. apply Z.mod_small. lia.
  - apply Z.mod_small. lia.
Qed.

Lemma char_of_byte_ascii a b : 0 <= b < 128 -> char_of_byte a b = b.
Proof.
  intros Hb. unfold char_of_byte.
  replace (128 <=? b) with false by (symmetry; apply Z.leb_gt; lia).
  rewrite andb_false_r. reflexivity.
Qed.

Lemma char_of_byte_unsigned a b :
  char_signed a = false -> char_of_byte a b = b.
Proof. intros H. unfold char_of_byte. rewrite H. reflexivity. Qed.

Lemma char_of_byte_high a b :
  char_signed a = true -> 128 <= b -> char_of_byte a b = b - 256.
Proof.
  intros H Hb. unfold char_of_byte. rewrite H.
  replace (128 <=? b) with true by (symmetry; apply Z.leb_le; lia).
  reflexivity.
Qed.

(** A comparison of a [char] with an ASCII constant sees the byte. *)
Lemma char_eqb_ascii a b k :
  is_byte b -> 0 <= k < 128 -> (char_of_byte a b =? k) = (b =? k).
Proof.
  unfold is_byte. intros Hb Hk.
  destruct (Z_lt_le_dec b 128) as [Hlt | Hge].
  - rewrite char_of_byte_ascii by lia. reflexivity.
  - unfold char_of_byte.
    replace (128 <=? b) with true by (symmetry; apply Z.leb_le; lia).
    destruct (char_signed a); cbn [andb].
    + transitivity false; [apply Z.eqb_neq | symmetry; apply Z.eqb_neq]; lia.
    + reflexivity.
Qed.

Lemma is_final_char a b :
  is_byte b -> is_final (char_of_byte a b) = is_final b.
Proof.
  unfold is_byte. intros Hb.
  destruct (Z_lt_le_dec b 128) as [Hlt | Hge].
  - rewrite char_of_byte_ascii by lia. reflexivity.
  - unfold char_of_byte.
    replace (128 <=? b) with true by (symmetry; apply Z.leb_le; lia).
    destruct (char_signed a); cbn [andb]; [|reflexivity].
    unfold is_final.
    replace (0x40 <=? b - 256) with false by (symmetry; apply Z.leb_gt; lia).
    replace (b <=? 0x7E) with false by (symmetry; apply Z.leb_gt; lia).
    rewrite andb_false_r. reflexivity.
Qed.

(** ** Little-endian values *)

Lemma le_bytes_app bs cs :
  le_bytes (bs ++ cs) = le_bytes bs + 256 ^ Z.of_nat (length bs) * le_bytes cs.
Proof.
  induction bs as [|b bs IH].
  - cbn [app length le_bytes]. change (256 ^ Z.of_nat 0) with 1. lia.
  - cbn [app length le_bytes]. rewrite IH.
    rewrite Nat2Z.inj_succ, Z.pow_succ_r by lia. lia.
Qed.

Lemma le_bytes_zeros n : le_bytes (replicate n 0) = 0.
Proof. induction n as [|n IH]; cbn [replicate le_bytes]; lia. Qed.

Lemma le_bytes_pad8 bs : le_bytes (pad8 bs) = le_bytes bs.
Proof. unfold pad8. rewrite le_bytes_app, le_bytes_zeros. lia. Qed.

Lemma le_bytes_range bs :
  Forall is_byte bs -> 0 <= le_bytes bs < 256 ^ Z.of_nat (length bs).
Proof.
  induction 1 as [|b bs Hb _ IH].
  - cbn. lia.
  - cbn [length le_bytes]. rewrite Nat2Z.inj_succ, Z.pow_succ_r by lia.
    unfold is_byte in Hb. lia.
Qed.

(** The buffer holding the [char]s of [bs], zero elsewhere, reads as the
    little-endian value of [bs]. *)
Lemma load_u64_chars a bs :
  Forall is_byte bs -> (length bs <= 8)%nat ->
  load_u64 ((char_of_byte a <$> bs) ++ replicate (8 - length bs) 0)
    = le_bytes (pad8 bs).
Proof.
  intros Hbs Hlen. unfold load_u64, pad8.
  rewrite take_ge by (rewrite length_app, length_fmap, length_replicate; lia).
  rewrite fmap_app, fmap_replicate. f_equal. f_equal.
  rewrite <- list_fmap_compose.
  induction Hbs as [|b bs Hb _ IH]; [reflexivity|].
  cbn [fmap list_fmap compose]. cbn [length] in Hlen.
  rewrite byte_of_char_of_byte by exact Hb.
  f_equal. apply IH. lia.
Qed.

(** ** The loop of [read_esc_seq] *)

Lemma insert_next (cs : list Z) n c k :
  n = length cs ->
  <[n := c]> (cs ++ replicate (S k) 0) = (cs ++ [c]) ++ replicate k 0.
Proof.
  intros ->. rewrite insert_app_r_alt by lia.
  rewrite Nat.sub_diag. cbn [replicate]. rewrite <- app_assoc. reflexivity.
Qed.

(** With [pre] in the buffer, intermediate bytes [mids] and then a final
    byte [t] that all fit, the loop returns the value of the buffer. *)
Lemma esc_loop_accepts a mids : forall pre t rest,
  Forall is_byte pre -> Forall intermediate mids -> final t ->
  (length pre + length mids < 8)%nat ->
  esc_loop a (typed (mids ++ [t]) rest)
    ((char_of_byte a <$> pre) ++ replicate (8 - length pre) 0) (length pre)
    = (le_bytes (pad8 (pre ++ mids ++ [t])), rest).
Proof.
  induction mids as [|b mids IH]; intros pre t rest Hpre Hmids [Ht Hfin] Hlen.
  - cbn [app typed fmap list_fmap esc_loop]. cbn [length] in Hlen.
    rewrite is_final_char, Hfin by exact Ht.
    f_equal.
    replace (8 - length pre)%nat with (S (8 - length (pre ++ [t])))
      by (rewrite length_app; cbn [length]; lia).
    rewrite insert_next by (rewrite length_fmap; reflexivity).
    change [char_of_byte a t] with (char_of_byte a <$> [t]).
    rewrite <- fmap_app.
    apply load_u64_chars.
    + apply Forall_app. split; [exact Hpre | apply Forall_singleton; exact Ht].
    + rewrite length_app. cbn [length]. lia.
  - apply Forall_cons in Hmids as [[Hb Hnf] Hmids].
    cbn [length] in Hlen.
    change (typed ((b :: mids) ++ [t]) rest)
      with (Some b :: typed (mids ++ [t]) rest).
    cbn [esc_loop].
    rewrite is_final_char, Hnf by exact Hb.
    replace (S (length pre) =? 8)%nat with false
      by (symmetry; apply Nat.eqb_neq; lia).
    replace (8 - length pre)%nat with (S (8 - length (pre ++ [b])))
      by (rewrite length_app; cbn [length]; lia).
    rewrite insert_next by (rewrite length_fmap; reflexivity).
    change [char_of_byte a b] with (char_of_byte a <$> [b]).
    rewrite <- fmap_app.
    replace (S (length pre)) with (length (pre ++ [b]))
      by (rewrite length_app; cbn [length]; lia).
    rewrite IH.
    + rewrite <- app_assoc. reflexivity.
    + apply Forall_app. split; [exact Hpre | apply Forall_singleton; exact Hb].
    + exact Hmids.
    + split; assumption.
    + rewrite length_app. cbn [length]. lia.
Qed.

(** Intermediate bytes that fill the buffer end the loop with [0]. *)
Lemma esc_loop_too_long a mids : forall buf len rest,
  Forall intermediate mids -> mids <> [] ->
  (len + length mids = 8)%nat ->
  esc_loop a (typed mids rest) buf len = (0, rest).
Proof.
  induction mids as [|b mids IH]; intros buf len rest Hmids Hne Hlen.
  - congruence.
  - apply Forall_cons in Hmids as [[Hb Hnf] Hmids].
    cbn [length] in Hlen.
    change (typed (b :: mids) rest) with (Some b :: typed mids rest).
    cbn [esc_loop].
    rewrite is_final_char, Hnf by exact Hb.
    destruct mids as [|b' mids].
    + cbn [length] in Hlen.
      replace (S len =? 8)%nat with true
        by (symmetry; apply Nat.eqb_eq; lia).
      reflexivity.
    + cbn [length] in Hlen.
      replace (S len =? 8)%nat with false
        by (symmetry; apply Nat.eqb_neq; lia).
      apply IH; [exact Hmids | discriminate | cbn [length]; lia].
Qed.

(** An escape sequence: [ESC], ['['], intermediate bytes, a final
    byte. *)
Lemma read_keypress_escape a mids t rest :
  Forall intermediate mids -> final t -> (length mids <= 5)%nat ->
  tfb_read_keypress a (typed (ESC :: LBRACKET :: mids ++ [t]) rest)
    = (le_bytes (pad8 (ESC :: LBRACKET :: mids ++ [t])), rest).
Proof.
  intros Hmids Ht Hlen.
  change (typed (ESC :: LBRACKET :: mids ++ [t]) rest)
    with (Some ESC :: Some LBRACKET :: typed (mids ++ [t]) rest).
  unfold tfb_read_keypress, read_esc_seq. cbn [read].
  rewrite !char_of_byte_ascii by (unfold ESC, LBRACKET; lia).
  cbn [Z.eqb ESC LBRACKET Pos.eqb negb].
  assert (Hpre : Forall is_byte [ESC; LBRACKET]).
  { repeat apply Forall_cons_2; try apply Forall_nil_2;
      unfold is_byte, ESC, LBRACKET; lia. }
  pose proof (esc_loop_accepts a mids [ESC; LBRACKET] t rest Hpre Hmids Ht)
    as H.
  cbn [fmap list_fmap length] in H.
  rewrite !char_of_byte_ascii in H by (unfold ESC, LBRACKET; lia).
  apply H. lia.
Qed.

Lemma read_keypress_escape_too_long a mids rest :
  Forall intermediate mids -> length mids = 6%nat ->
  tfb_read_keypress a (typed (ESC :: LBRACKET :: mids) rest) = (0, rest).
Proof.
  intros Hmids Hlen.
  change (typed (ESC :: LBRACKET :: mids) rest)
    with (Some ESC :: Some LBRACKET :: typed mids rest).
  unfold tfb_read_keypress, read_esc_seq. cbn [read].
  rewrite !char_of_byte_ascii by (unfold ESC, LBRACKET; lia).
  cbn [Z.eqb ESC LBRACKET Pos.eqb negb].
  apply esc_loop_too_long.
  - exact Hmids.
  - intros ->. discriminate Hlen.
  - lia.
Qed.

Lemma intermediate_bytes bs : Forall intermediate bs -> Forall is_byte bs.
Proof. induction 1 as [|b bs [Hb _] _ IH]; constructor; assumption. Qed.

(** ** Plain bytes *)

(** An ASCII byte other than [ESC] is returned as it is, whatever the
    signedness of [char]. *)
Lemma read_keypress_ascii a b rest :
  0 <= b < 128 -> b <> ESC ->
  tfb_read_keypress a (Some b :: rest) = (b, rest).
Proof.
  intros Hb Hne. unfold tfb_read_keypress. cbn [read].
  rewrite char_of_byte_ascii by exact Hb.
  replace (b =? ESC) with false by (symmetry; apply Z.eqb_neq; exact Hne).
  cbn [negb]. rewrite u64_small by (unfold is_u64; lia). reflexivity.
Qed.

(** Where [char] is unsigned every byte other than [ESC] is. *)
Lemma read_keypress_unsigned_char a b rest :
  char_signed a = false -> is_byte b -> b <> ESC ->
  tfb_read_keypress a (Some b :: rest) = (b, rest).
Proof.
  intros Ha Hb Hne. unfold tfb_read_keypress. cbn [read].
  rewrite char_of_byte_unsigned by exact Ha.
  replace (b =? ESC) with false by (symmetry; apply Z.eqb_neq; exact Hne).
  cbn [negb]. unfold is_byte in Hb.
  rewrite u64_small by (unfold is_u64; lia). reflexivity.
Qed.

(** Where [char] is signed a byte from [0x80] up comes back
    sign-extended. *)
Lemma read_keypress_signed_char_high a b rest :
  char_signed a = true -> 128 <= b < 256 ->
  tfb_read_keypress a (Some b :: rest) = (2 ^ 64 - 256 + b, rest).
Proof.
  intros Ha Hb. unfold tfb_read_keypress. cbn [read].
  rewrite char_of_byte_high by (exact Ha || lia).
  replace (b - 256 =? ESC) with false
    by (symmetry; apply Z.eqb_neq; unfold ESC; lia).
  cbn [negb]. f_equal. unfold u64.
  replace (b - 256) with (2 ^ 64 - 256 + b + (-1) * 2 ^ 64) by lia.
  rewrite Z.mod_add by lia. apply Z.mod_small. lia.
Qed.

Example read_keypress_high_byte_arm :
  tfb_read_keypress arm32 [Some 0x80] = (128, []).
Proof. reflexivity. Qed.

(** C3, on the code: byte [0x41] gives 65 on every platform, but on
    x86-64, where [char] is signed, the single byte [0x80] is returned as
    [0xFFFFFFFFFFFFFF80], not as 128: [return c] sign-extends. *)
Theorem read_keypress_sign_extends_high_byte :
  tfb_read_keypress x86_64 [Some 0x41] = (65, []) /\
  tfb_read_keypress x86_64 [Some 0x80] = (0xFFFFFFFFFFFFFF80, []) /\
  0xFFFFFFFFFFFFFF80 <> 0x80 /\
  ~ (0 <= fst (tfb_read_keypress x86_64 [Some 0x80]) <= 255).
Proof.
  split; [reflexivity | split; [reflexivity | split; [discriminate|]]].
  vm_compute. intros [_ H]. apply H. reflexivity.
Qed.

(** ** Escape sequences *)

(** C6: the bytes [ESC '[' 'A'] give the nonzero code [0x415B1B], the
    little-endian value of these three bytes followed by five zero
    bytes; and every sequence [ESC '['], at most five intermediate
    bytes, a final byte gives the little-endian value of the eight-byte
    buffer holding the sequence and zeros after it. *)
Theorem read_keypress_escape_little_endian a :
  (forall rest,
     tfb_read_keypress a (typed [0x1B; 0x5B; 0x41] rest)
       = (le_bytes [0x1B; 0x5B; 0x41; 0; 0; 0; 0; 0], rest)) /\
  le_bytes [0x1B; 0x5B; 0x41; 0; 0; 0; 0; 0] = 0x415B1B /\
  0x415B1B <> 0 /\
  (forall mids t rest,
     Forall intermediate mids -> final t -> (length mids <= 5)%nat ->
     length (pad8 (ESC :: LBRACKET :: mids ++ [t])) = 8%nat /\
     tfb_read_keypress a (typed (ESC :: LBRACKET :: mids ++ [t]) rest)
       = (le_bytes (pad8 (ESC :: LBRACKET :: mids ++ [t])), rest)).
Proof.
  split; [|split; [|split]].
  - intros rest.
    apply (read_keypress_escape a [] 0x41 rest).
    + constructor.
    + split; [unfold is_byte; lia | reflexivity].
    + cbn [length]. lia.
  - reflexivity.
  - discriminate.
  - intros mids t rest Hmids Ht Hlen. split.
    + unfold pad8. cbn [length].
      rewrite length_app, length_replicate. cbn [length].
      rewrite length_app. cbn [length]. lia.
    + apply read_keypress_escape; assumption.
Qed.

Lemma read_keypress_escape_little_endian_witness :
  Forall intermediate [0x31; 0x37] /\ final 0x7E /\
  (length [0x31; 0x37] <= 5)%nat /\
  tfb_read_keypress x86_64 (typed (ESC :: LBRACKET :: [0x31; 0x37] ++ [0x7E]) [])
    = (le_bytes (pad8 (ESC :: LBRACKET :: [0x31; 0x37] ++ [0x7E])), []).
Proof.
  assert (Hm : Forall intermediate [0x31; 0x37]).
  { repeat apply Forall_cons_2; try apply Forall_nil_2;
      (split; [unfold is_byte; lia | reflexivity]). }
  assert (Ht : final 0x7E).
  { split; [unfold is_byte; lia | reflexivity]. }
  assert (Hl : (length [0x31; 0x37] <= 5)%nat).
  { cbn [length]. lia. }
  split; [exact Hm | split; [exact Ht | split; [exact Hl |]]].
  destruct (read_keypress_escape_little_endian x86_64) as (_ & _ & _ & H).
  exact (proj2 (H [0x31; 0x37] 0x7E [] Hm Ht Hl)).
Defined.

(** C8: after [ESC '['], five intermediate bytes and an eighth byte: if
    the eighth byte is a final byte the sequence is accepted and decodes
    to the little-endian value of all eight bytes, a code that needs all
    64 bits; the call returns 0 for length only if the eighth byte is not
    a final byte. *)
Theorem read_keypress_eight_byte_sequence a b2 b3 b4 b5 b6 b7 rest :
  Forall intermediate [b2; b3; b4; b5; b6] -> is_byte b7 ->
  let r := tfb_read_keypress a
             (typed [ESC; LBRACKET; b2; b3; b4; b5; b6; b7] rest) in
  (is_final b7 = true ->
     r = (le_bytes [ESC; LBRACKET; b2; b3; b4; b5; b6; b7], rest) /\
     2 ^ 56 <= fst r < 2 ^ 64) /\
  (is_final b7 = false -> r = (0, rest)).
Proof.
  intros Hmids Hb7. cbn zeta. split.
  - intros Hfin.
    pose proof (read_keypress_escape a [b2; b3; b4; b5; b6] b7 rest
                  Hmids (conj Hb7 Hfin)) as H.
    cbn [app length] in H. specialize (H ltac:(lia)).
    rewrite le_bytes_pad8 in H. rewrite H. split; [reflexivity|].
    cbn [fst].
    assert (Hpre : Forall is_byte [ESC; LBRACKET; b2; b3; b4; b5; b6]).
    { apply Forall_cons_2; [unfold is_byte, ESC; lia|].
      apply Forall_cons_2; [unfold is_byte, LBRACKET; lia|].
      apply intermediate_bytes. exact Hmids. }
    pose proof (le_bytes_range _ Hpre) as Hlo.
    assert (Hb7' : 0x40 <= b7).
    { unfold is_final in Hfin.
      apply andb_prop in Hfin as [Hfin _]. apply andb_prop in Hfin as [Hfin _].
      apply Z.leb_le in Hfin. exact Hfin. }
    change (le_bytes [ESC; LBRACKET; b2; b3; b4; b5; b6; b7])
      with (le_bytes ([ESC; LBRACKET; b2; b3; b4; b5; b6] ++ [b7])).
    rewrite le_bytes_app.
    change (le_bytes [b7]) with (b7 + 256 * 0).
    change (256 ^ Z.of_nat (length [ESC; LBRACKET; b2; b3; b4; b5; b6]))
      with (2 ^ 56) in *.
    unfold is_byte in Hb7. lia.
  - intros Hnf.
    apply (read_keypress_escape_too_long a [b2; b3; b4; b5; b6; b7] rest).
    + apply Forall_app with (l1 := [b2; b3; b4; b5; b6]) (l2 := [b7]).
      split; [exact Hmids | apply Forall_singleton; split; assumption].
    + reflexivity.
Qed.

Lemma read_keypress_eight_byte_sequence_witness :
  Forall intermediate [0x31; 0x3B; 0x32; 0x3B; 0x33] /\ is_byte 0x7E /\
  tfb_read_keypress x86_64
    (typed [ESC; LBRACKET; 0x31; 0x3B; 0x32; 0x3B; 0x33; 0x7E] [])
    = (0x7E333B323B315B1B, []).
Proof.
  assert (Hm : Forall intermediate [0x31; 0x3B; 0x32; 0x3B; 0x33]).
  { repeat apply Forall_cons_2; try apply Forall_nil_2;
      (split; [unfold is_byte; lia | reflexivity]). }
  assert (Hb : is_byte 0x7E) by (unfold is_byte; lia).
  split; [exact Hm | split; [exact Hb |]].
  destruct (read_keypress_eight_byte_sequence x86_64
              0x31 0x3B 0x32 0x3B 0x33 0x7E [] Hm Hb) as [H _].
  exact (proj1 (H eq_refl)).
Defined.

(** ** What a call consumes, and what it rejects *)

Lemma esc_loop_consumes a inp : forall buf len,
  (len <= 7)%nat ->
  exists used,
    inp = used ++ snd (esc_loop a inp buf len) /\
    (1 <= length used <= 8 - len \/ inp = [])%nat.
Proof.
  induction inp as [|r inp IH]; intros buf len Hlen.
  - exists []. split; [reflexivity | right; reflexivity].
  - destruct r as [b|]; cbn [esc_loop].
    + destruct (is_final (char_of_byte a b)).
      { exists [Some b]. cbn [snd length app]. split; [reflexivity | left; lia]. }
      destruct (S len =? 8)%nat eqn:E.
      { exists [Some b]. cbn [snd length app]. split; [reflexivity | left; lia]. }
      apply Nat.eqb_neq in E.
      destruct (IH (<[len:=char_of_byte a b]> buf) (S len) ltac:(lia))
        as (used & Hused & Hlen').
      exists (Some b :: used). cbn [app length]. split.
      * f_equal. exact Hused.
      * left. destruct Hlen' as [Hl | ->]; [lia|].
        destruct used; [cbn; lia | discriminate Hused].
    + exists [None]. cbn [snd length app]. split; [reflexivity | left; lia].
Qed.

(** X18: one call of [tfb_read_keypress] takes a prefix of at most eight
    reads off the input, and at least one unless the input is at its
    end: what follows is left for the next call. *)
Theorem read_keypress_consumes_at_most_eight a (inp : stdin) :
  exists used,
    inp = used ++ snd (tfb_read_keypress a inp) /\
    (length used <= 8)%nat /\
    (inp <> [] -> used <> []).
Proof.
  unfold tfb_read_keypress.
  destruct inp as [|[b|] inp]; cbn [read].
  - exists []. split; [reflexivity | split; [cbn; lia | congruence]].
  - destruct (negb (char_of_byte a b =? ESC)).
    { exists [Some b]. split; [reflexivity | split; [cbn; lia | discriminate]]. }
    unfold read_esc_seq.
    destruct inp as [|[c|] inp]; cbn [read].
    + exists [Some b]. split; [reflexivity | split; [cbn; lia | discriminate]].
    + destruct (negb (char_of_byte a c =? LBRACKET)).
      { exists [Some b; Some c].
        split; [reflexivity | split; [cbn; lia | discriminate]]. }
      destruct (esc_loop_consumes a inp
                  (<[1%nat:=char_of_byte a c]> (<[0%nat:=ESC]> (replicate 8 0)))
                  2 ltac:(lia)) as (used & Hused & Hlen).
      exists (Some b :: Some c :: used). cbn [app length]. split.
      * do 2 f_equal. exact Hused.
      * split; [|discriminate].
        destruct Hlen as [Hl | ->]; [lia|].
        destruct used; [cbn; lia | discriminate Hused].
    + exists [Some b; None].
      split; [reflexivity | split; [cbn; lia | discriminate]].
  - exists [None]. split; [reflexivity | split; [cbn; lia | discriminate]].
Qed.

(** A read that fails, or the end of the input, ends the loop with 0. *)
Lemma esc_loop_cut_off a mids : forall buf len rest,
  Forall intermediate mids -> (len + length mids < 8)%nat ->
  esc_loop a (typed mids (None :: rest)) buf len = (0, rest) /\
  esc_loop a (typed mids []) buf len = (0, []).
Proof.
  induction mids as [|b mids IH]; intros buf len rest Hmids Hlen.
  - split; reflexivity.
  - apply Forall_cons in Hmids as [[Hb Hnf] Hmids]. cbn [length] in Hlen.
    change (typed (b :: mids) (None :: rest))
      with (Some b :: typed mids (None :: rest)).
    change (typed (b :: mids) []) with (Some b :: typed mids []).
    cbn [esc_loop].
    rewrite is_final_char, Hnf by exact Hb.
    replace (S len =? 8)%nat with false by (symmetry; apply Nat.eqb_neq; lia).
    apply IH; [exact Hmids | lia].
Qed.

(** X19: an escape byte that is not followed by ['['] gives 0 and both
    bytes are gone; an escape sequence that is cut off before its final
    byte, by a failing read or by the end of the input, gives 0 as
    well. *)
Theorem read_keypress_rejects_unfinished_escape a mids b rest :
  Forall intermediate mids -> (length mids <= 5)%nat ->
  is_byte b -> b <> LBRACKET ->
  tfb_read_keypress a (Some ESC :: Some b :: rest) = (0, rest) /\
  tfb_read_keypress a (Some ESC :: None :: rest) = (0, rest) /\
  tfb_read_keypress a [Some ESC] = (0, []) /\
  tfb_read_keypress a (typed (ESC :: LBRACKET :: mids) (None :: rest))
    = (0, rest) /\
  tfb_read_keypress a (typed (ESC :: LBRACKET :: mids) []) = (0, []).
Proof.
  intros Hmids Hlen Hb Hne.
  assert (Hesc : negb (char_of_byte a ESC =? ESC) = false).
  { rewrite char_of_byte_ascii by (unfold ESC; lia). reflexivity. }
  split; [|split; [|split]].
  - unfold tfb_read_keypress, read_esc_seq. cbn [read]. rewrite Hesc.
    rewrite (char_eqb_ascii a b LBRACKET Hb) by (unfold LBRACKET; lia).
    replace (b =? LBRACKET) with false by (symmetry; apply Z.eqb_neq; exact Hne).
    reflexivity.
  - unfold tfb_read_keypress, read_esc_seq. cbn [read]. rewrite Hesc.
    reflexivity.
  - unfold tfb_read_keypress, read_esc_seq. cbn [read]. rewrite Hesc.
    reflexivity.
  - change (typed (ESC :: LBRACKET :: mids) (None :: rest))
      with (Some ESC :: Some LBRACKET :: typed mids (None :: rest)).
    change (typed (ESC :: LBRACKET :: mids) [])
      with (Some ESC :: Some LBRACKET :: typed mids []).
    unfold tfb_read_keypress, read_esc_seq. cbn [read]. rewrite Hesc.
    rewrite (char_of_byte_ascii a LBRACKET) by (unfold LBRACKET; lia).
    cbn [Z.eqb LBRACKET Pos.eqb negb].
    apply esc_loop_cut_off; [exact Hmids | lia].
Qed.

Lemma read_keypress_rejects_unfinished_escape_witness :
  Forall intermediate [0x31; 0x37] /\ (length [0x31; 0x37] <= 5)%nat /\
  is_byte 0x58 /\ 0x58 <> LBRACKET /\
  tfb_read_keypress x86_64 [Some ESC; Some 0x58] = (0, []).
Proof.
  assert (Hm : Forall intermediate [0x31; 0x37]).
  { repeat apply Forall_cons_2; try apply Forall_nil_2;
      (split; [unfold is_byte; lia | reflexivity]). }
  assert (Hl : (length [0x31; 0x37] <= 5)%nat) by (cbn [length]; lia).
  assert (Hb : is_byte 0x58) by (unfold is_byte; lia).
  assert (Hne : 0x58 <> LBRACKET) by discriminate.
  split; [exact Hm | split; [exact Hl | split; [exact Hb | split; [exact Hne|]]]].
  exact (proj1 (read_keypress_rejects_unfinished_escape x86_64 _ _ []
                  Hm Hl Hb Hne)).
Defined.

(** ** What a nonzero code stands for *)

(** Storing the next byte of a sequence in the buffer. *)
Lemma store_next a pre b :
  (length pre <= 7)%nat ->
  <[length pre := char_of_byte a b]>
    ((char_of_byte a <$> pre) ++ replicate (8 - length pre) 0)
  = (char_of_byte a <$> (pre ++ [b])) ++ replicate (8 - length (pre ++ [b])) 0.
Proof.
  intros Hlen.
  replace (8 - length pre)%nat with (S (8 - length (pre ++ [b])))
    by (rewrite length_app; cbn [length]; lia).
  rewrite insert_next by (rewrite length_fmap; reflexivity).
  rewrite fmap_app. reflexivity.
Qed.

Lemma esc_loop_sound a inp : forall pre k rest,
  bytes_only inp -> Forall is_byte pre -> (length pre <= 7)%nat ->
  esc_loop a inp ((char_of_byte a <$> pre) ++ replicate (8 - length pre) 0)
    (length pre) = (k, rest) ->
  k <> 0 ->
  exists mids t,
    inp = typed (mids ++ [t]) rest /\
    Forall intermediate mids /\ final t /\
    (length pre + length mids < 8)%nat /\
    k = le_bytes (pad8 (pre ++ mids ++ [t])).
Proof.
  induction inp as [|r inp IH]; intros pre k rest Hinp Hpre Hlen.
  - cbn [esc_loop]. intros [= <- <-] Hk. contradiction.
  - apply Forall_cons in Hinp as [Hr Hinp].
    destruct r as [b|]; cbn [esc_loop].
    + specialize (Hr b eq_refl).
      rewrite is_final_char by exact Hr.
      rewrite store_next by exact Hlen.
      destruct (is_final b) eqn:Efin.
      * intros [= <- <-] _. exists [], b.
        split; [reflexivity|]. split; [constructor|].
        split; [split; assumption|]. split; [cbn [length]; lia|].
        cbn [app]. apply load_u64_chars.
        -- apply Forall_app. split; [exact Hpre | apply Forall_singleton; exact Hr].
        -- rewrite length_app. cbn [length]. lia.
      * destruct (S (length pre) =? 8)%nat eqn:E8.
        { intros [= <- <-] Hk. contradiction. }
        apply Nat.eqb_neq in E8.
        replace (S (length pre)) with (length (pre ++ [b]))
          by (rewrite length_app; cbn [length]; lia).
        intros Hrun Hk.
        apply IH in Hrun as (mids & t & -> & Hmids & Ht & Hl & ->);
          [ | exact Hinp
            | apply Forall_app; split;
                [exact Hpre | apply Forall_singleton; exact Hr]
            | rewrite length_app; cbn [length]; lia
            | exact Hk ].
        exists (b :: mids), t.
        split; [reflexivity|].
        split; [apply Forall_cons_2; [split; assumption | exact Hmids]|].
        split; [exact Ht|].
        rewrite length_app in Hl. cbn [length] in Hl |- *.
        split; [lia|].
        rewrite <- app_assoc. reflexivity.
    + intros [= <- <-] Hk. contradiction.
Qed.

Lemma pad8_bytes bs :
  Forall is_byte bs -> (length bs <= 8)%nat ->
  Forall is_byte (pad8 bs) /\ length (pad8 bs) = 8%nat.
Proof.
  intros Hbs Hlen. unfold pad8. split.
  - apply Forall_app. split; [exact Hbs|].
    apply Forall_replicate. unfold is_byte. lia.
  - rewrite length_app, length_replicate. lia.
Qed.

Lemma escape_sequence_bytes mids t :
  complete mids t ->
  Forall is_byte (escape_sequence mids t) /\
  (length (escape_sequence mids t) <= 8)%nat.
Proof.
  intros (Hmids & [Ht _] & Hlen). unfold escape_sequence. split.
  - apply Forall_cons_2; [unfold is_byte, ESC; lia|].
    apply Forall_cons_2; [unfold is_byte, LBRACKET; lia|].
    apply Forall_app. split; [apply intermediate_bytes; exact Hmids|].
    apply Forall_singleton. exact Ht.
  - cbn [length]. rewrite length_app. cbn [length]. lia.
Qed.

(** X20: the codes of [tfb_read_keypress] are 64-bit values, and a
    nonzero code is never made up: either the input began with a byte
    other than [ESC] and the code is that [char] converted, or it began
    with a complete escape sequence of at most eight bytes and the code
    is the little-endian value of these bytes; in both cases exactly
    these bytes were consumed. *)
Theorem read_keypress_nonzero_code_sound a (inp : stdin) :
  bytes_only inp ->
  let k := fst (tfb_read_keypress a inp) in
  let rest := snd (tfb_read_keypress a inp) in
  is_u64 k /\
  (k <> 0 ->
     (exists b, inp = Some b :: rest /\ b <> ESC /\ k = u64 (char_of_byte a b)) \/
     (exists mids t,
        complete mids t /\
        inp = typed (escape_sequence mids t) rest /\
        k = le_bytes (pad8 (escape_sequence mids t)))).
Proof.
  intros Hinp. cbn zeta.
  assert (Hsound :
    fst (tfb_read_keypress a inp) <> 0 ->
    (exists b, inp = Some b :: snd (tfb_read_keypress a inp) /\ b <> ESC /\
               fst (tfb_read_keypress a inp) = u64 (char_of_byte a b)) \/
    (exists mids t,
       complete mids t /\
       inp = typed (escape_sequence mids t) (snd (tfb_read_keypress a inp)) /\
       fst (tfb_read_keypress a inp)
         = le_bytes (pad8 (escape_sequence mids t)))).
  { unfold tfb_read_keypress.
    destruct inp as [|[b|] inp]; cbn [read]; try (cbn; congruence).
    apply Forall_cons in Hinp as [Hb Hinp]. specialize (Hb b eq_refl).
    rewrite (char_eqb_ascii a b ESC Hb) by (unfold ESC; lia).
    destruct (b =? ESC) eqn:Eesc; cbn [negb].
    - apply Z.eqb_eq in Eesc. subst b.
      unfold read_esc_seq.
      destruct inp as [|[c|] inp]; cbn [read]; try (cbn; congruence).
      apply Forall_cons in Hinp as [Hc Hinp]. specialize (Hc c eq_refl).
      rewrite (char_eqb_ascii a c LBRACKET Hc) by (unfold LBRACKET; lia).
      destruct (c =? LBRACKET) eqn:Ebr; cbn [negb]; [|cbn; congruence].
      apply Z.eqb_eq in Ebr. subst c.
      intros Hk. right.
      destruct (esc_loop a inp
                  (<[1%nat:=char_of_byte a LBRACKET]>
                     (<[0%nat:=ESC]> (replicate 8 0))) 2) as [k rest] eqn:Erun.
      cbn [fst snd] in *.
      assert (Hpre : Forall is_byte [ESC; LBRACKET]).
      { repeat apply Forall_cons_2; try apply Forall_nil_2;
          unfold is_byte, ESC, LBRACKET; lia. }
      pose proof (esc_loop_sound a inp [ESC; LBRACKET] k rest Hinp Hpre) as H.
      cbn [fmap list_fmap length] in H.
      rewrite (char_of_byte_ascii a ESC) in H by (unfold ESC; lia).
      specialize (H ltac:(lia) Erun Hk).
      destruct H as (mids & t & -> & Hmids & Ht & Hl & ->).
      exists mids, t. cbn [length] in Hl.
      split; [split; [exact Hmids | split; [exact Ht | lia]]|].
      split; reflexivity.
    - apply Z.eqb_neq in Eesc. cbn [fst snd]. intros _. left.
      exists b. split; [reflexivity | split; [exact Eesc | reflexivity]]. }
  split; [|exact Hsound].
  destruct (Z.eq_dec (fst (tfb_read_keypress a inp)) 0) as [-> | Hk].
  { unfold is_u64. lia. }
  destruct (Hsound Hk) as [(b & _ & _ & ->) | (mids & t & Hc & _ & ->)].
  - unfold is_u64, u64. apply Z.mod_pos_bound. lia.
  - destruct (escape_sequence_bytes mids t Hc) as [Hb Hl].
    destruct (pad8_bytes _ Hb Hl) as [Hpb Hpl].
    pose proof (le_bytes_range _ Hpb) as Hr. rewrite Hpl in Hr.
    unfold is_u64. change (256 ^ Z.of_nat 8) with (2 ^ 64) in Hr. exact Hr.
Qed.

Lemma read_keypress_nonzero_code_sound_witness :
  bytes_only [Some 0x1B; Some 0x5B; Some 0x41; Some 0x61] /\
  is_u64 (fst (tfb_read_keypress x86_64
                 [Some 0x1B; Some 0x5B; Some 0x41; Some 0x61])).
Proof.
  assert (H : bytes_only [Some 0x1B; Some 0x5B; Some 0x41; Some 0x61]).
  { unfold bytes_only.
    repeat apply Forall_cons_2; try apply Forall_nil_2;
      intros b [= <-]; unfold is_byte; lia. }
  split; [exact H|].
  exact (proj1 (read_keypress_nonzero_code_sound x86_64 _ H)).
Defined.

(** Equal little-endian values of as many bytes: equal bytes. *)
Lemma le_bytes_inj bs : forall cs,
  Forall is_byte bs -> Forall is_byte cs -> length bs = length cs ->
  le_bytes bs = le_bytes cs -> bs = cs.
Proof.
  induction bs as [|b bs IH]; intros [|c cs] Hbs Hcs Hlen Heq;
    try discriminate Hlen; [reflexivity|].
  apply Forall_cons in Hbs as [Hb Hbs]. apply Forall_cons in Hcs as [Hc Hcs].
  cbn [le_bytes] in Heq. unfold is_byte in Hb, Hc.
  assert (b = c) by lia. subst c.
  f_equal. apply IH; [assumption | assumption | | lia].
  cbn [length] in Hlen. lia.
Qed.

(** Two byte strings that agree up to and including their first final
    byte. *)
Lemma first_final_unique front1 : forall front2 t1 t2 z1 z2,
  Forall (fun b => is_final b = false) front1 ->
  Forall (fun b => is_final b = false) front2 ->
  is_final t1 = true -> is_final t2 = true ->
  front1 ++ t1 :: z1 = front2 ++ t2 :: z2 ->
  front1 = front2 /\ t1 = t2.
Proof.
  induction front1 as [|x f1 IH]; intros [|y f2] t1 t2 z1 z2 H1 H2 Ht1 Ht2 Heq;
    cbn [app] in Heq.
  - injection Heq as -> _. auto.
  - injection Heq as -> _. apply Forall_cons in H2 as [H2 _]. congruence.
  - injection Heq as -> _. apply Forall_cons in H1 as [H1 _]. congruence.
  - injection Heq as -> Heq.
    apply Forall_cons in H1 as [_ H1]. apply Forall_cons in H2 as [_ H2].
    destruct (IH f2 t1 t2 z1 z2 H1 H2 Ht1 Ht2 Heq) as [-> ->]. auto.
Qed.

(** X21: two complete escape sequences that [tfb_read_keypress] turns
    into the same code are the same sequence of bytes: the code tells the
    key. *)
Theorem escape_codes_tell_the_sequence a a' mids t mids' t' rest rest' :
  complete mids t -> complete mids' t' ->
  fst (tfb_read_keypress a (typed (escape_sequence mids t) rest))
    = fst (tfb_read_keypress a' (typed (escape_sequence mids' t') rest')) ->
  mids = mids' /\ t = t'.
Proof.
  intros Hc Hc' Heq.
  pose proof Hc as (Hmids & Ht & Hlen).
  pose proof Hc' as (Hmids' & Ht' & Hlen').
  unfold escape_sequence in Heq.
  rewrite !read_keypress_escape in Heq by assumption.
  cbn [fst] in Heq.
  destruct (escape_sequence_bytes mids t Hc) as [Hb Hl].
  destruct (escape_sequence_bytes mids' t' Hc') as [Hb' Hl'].
  destruct (pad8_bytes _ Hb Hl) as [Hpb Hpl].
  destruct (pad8_bytes _ Hb' Hl') as [Hpb' Hpl'].
  apply le_bytes_inj in Heq;
    [ | exact Hpb | exact Hpb' | unfold escape_sequence in *; congruence ].
  unfold pad8 in Heq.
  change (ESC :: LBRACKET :: mids ++ [t])
    with ((ESC :: LBRACKET :: mids) ++ [t]) in Heq.
  change (ESC :: LBRACKET :: mids' ++ [t'])
    with ((ESC :: LBRACKET :: mids') ++ [t']) in Heq.
  rewrite <- !app_assoc in Heq. cbn [app] in Heq.
  assert (Hfront : forall ms, Forall intermediate ms ->
            Forall (fun b => is_final b = false) ms).
  { intros ms Hms.
    induction Hms as [|b bs [_ Hb0] _ IH]; constructor; assumption. }
  injection Heq as Heq.
  destruct Ht as [_ Hft]. destruct Ht' as [_ Hft'].
  exact (first_final_unique mids mids' t t' _ _
           (Hfront mids Hmids) (Hfront mids' Hmids') Hft Hft' Heq).
Qed.

Lemma escape_codes_tell_the_sequence_witness :
  complete [] 0x41 /\
  fst (tfb_read_keypress x86_64 (typed (escape_sequence [] 0x41) []))
    = fst (tfb_read_keypress arm32 (typed (escape_sequence [] 0x41) [Some 0]))
  /\ 0x41 = 0x41.
Proof.
  assert (Hc : complete [] 0x41).
  { split; [constructor|].
    split; [split; [unfold is_byte; lia | reflexivity] | cbn [length]; lia]. }
  assert (Heq : fst (tfb_read_keypress x86_64
                       (typed (escape_sequence [] 0x41) []))
                = fst (tfb_read_keypress arm32
                         (typed (escape_sequence [] 0x41) [Some 0]))).
  { reflexivity. }
  split; [exact Hc | split; [exact Heq|]].
  exact (proj2 (escape_codes_tell_the_sequence x86_64 arm32 [] 0x41 [] 0x41
                  [] [Some 0] Hc Hc Heq)).
Defined.

(** ** Function keys *)

(** The search from index [i] over [todo] entries gives 0 when none of
    them is [k], and otherwise one more than the index of the first that
    is. *)
Lemma fn_key_search_spec k todo : forall i,
  let r := fn_key_search todo i k in
  (r = 0 /\
   forall j, i <= j < i + Z.of_nat todo -> tfb_fn_key_sequences j <> k) \/
  (i + 1 <= r <= i + Z.of_nat todo /\
   tfb_fn_key_sequences (r - 1) = k /\
   forall j, i <= j < r - 1 -> tfb_fn_key_sequences j <> k).
Proof.
  induction todo as [|todo IH]; intros i; cbn zeta.
  - left. split; [reflexivity | intros j Hj; lia].
  - cbn [fn_key_search].
    destruct (tfb_fn_key_sequences i =? k) eqn:E.
    + apply Z.eqb_eq in E. right. split; [lia | split].
      * replace (i + 1 - 1) with i by lia. exact E.
      * intros j Hj. lia.
    + apply Z.eqb_neq in E.
      destruct (IH (i + 1)) as [[H0 Hnone] | (Hr & Hk & Hfirst)].
      * left. split; [exact H0|]. intros j Hj.
        destruct (Z.eq_dec j i) as [-> | Hji]; [exact E | apply Hnone; lia].
      * right. split; [lia | split; [exact Hk|]]. intros j Hj.
        destruct (Z.eq_dec j i) as [-> | Hji]; [exact E | apply Hfirst; lia].
Qed.

Lemma fn_key_sequences_nonzero i :
  0 <= i < 12 -> tfb_fn_key_sequences i <> 0.
Proof.
  intros Hi.
  assert (H : i = 0 \/ i = 1 \/ i = 2 \/ i = 3 \/ i = 4 \/ i = 5 \/ i = 6 \/
              i = 7 \/ i = 8 \/ i = 9 \/ i = 10 \/ i = 11) by lia.
  repeat (destruct H as [-> | H]); try subst i; vm_compute; discriminate.
Qed.

(** C10: the twelve entries of the table are nonzero, so
    [tfb_get_fn_key_num 0] is 0 and the code 0 that [tfb_read_keypress]
    returns for no key is no function key; for every [k] the result lies
    in 0..12 and is the 1-based index of the first entry equal to [k], or
    0 when there is none. *)
Theorem get_fn_key_num_first_match k :
  (forall i, 0 <= i < 12 -> tfb_fn_key_sequences i <> 0) /\
  tfb_get_fn_key_num 0 = 0 /\
  0 <= tfb_get_fn_key_num k <= 12 /\
  (tfb_get_fn_key_num k = 0 <->
     forall i, 0 <= i < 12 -> tfb_fn_key_sequences i <> k) /\
  (tfb_get_fn_key_num k <> 0 ->
     tfb_fn_key_sequences (tfb_get_fn_key_num k - 1) = k /\
     forall j, 0 <= j < tfb_get_fn_key_num k - 1 ->
       tfb_fn_key_sequences j <> k).
Proof.
  split; [exact fn_key_sequences_nonzero | split; [reflexivity|]].
  unfold tfb_get_fn_key_num.
  destruct (fn_key_search_spec k 12 0) as [[H0 Hnone] | (Hr & Hk & Hfirst)];
    cbn zeta in *.
  - rewrite H0. split; [lia | split; [split; [intros _; exact Hnone | reflexivity] |]].
    intros H. contradiction.
  - split; [lia | split; [split |]].
    + intros H. lia.
    + intros Hnone. exfalso. apply (Hnone (fn_key_search 12 0 k - 1)); [lia | exact Hk].
    + intros _. split; [exact Hk | exact Hfirst].
Qed.

Lemma get_fn_key_num_first_match_witness :
  tfb_get_fn_key_num 0x7E37315B1B <> 0 /\
  tfb_fn_key_sequences (tfb_get_fn_key_num 0x7E37315B1B - 1) = 0x7E37315B1B.
Proof.
  assert (H : tfb_get_fn_key_num 0x7E37315B1B <> 0).
  { vm_compute. discriminate. }
  split; [exact H|].
  destruct (get_fn_key_num_first_match 0x7E37315B1B) as (_ & _ & _ & _ & Hm).
  exact (proj1 (Hm H)).
Defined.

(** C9: for each [i] in 1..12, reading the bytes of the [i]-th entry of
    the function-key table (the entry without its zero padding) gives
    the [i]-th code of the table, on which [tfb_get_fn_key_num] returns
    [i]; the first five entries have a second ['['], which is stored and
    does not end the sequence. *)
Theorem fn_key_table_round_trip a i rest :
  1 <= i <= 12 ->
  let row := tfb_fn_key_seq_char !!! Z.to_nat (i - 1) in
  let r := tfb_read_keypress a (typed (key_bytes row) rest) in
  r = (tfb_fn_key_sequences (i - 1), rest) /\
  tfb_get_fn_key_num (fst r) = i /\
  (i = 1 -> key_bytes row = [0x1B; 0x5B; 0x5B; 0x41]).
Proof.
  intros Hi.
  assert (H : i = 1 \/ i = 2 \/ i = 3 \/ i = 4 \/ i = 5 \/ i = 6 \/ i = 7 \/
              i = 8 \/ i = 9 \/ i = 10 \/ i = 11 \/ i = 12) by lia.
  destruct a as [[] sw];
    repeat (destruct H as [-> | H]); try subst i;
    (split; [vm_compute; reflexivity
            | split; [vm_compute; reflexivity | intros E; first [discriminate E | reflexivity]]]).
Qed.

Lemma fn_key_table_round_trip_witness :
  1 <= 1 <= 12 /\
  tfb_get_fn_key_num
    (fst (tfb_read_keypress x86_64 (typed [0x1B; 0x5B; 0x5B; 0x41] []))) = 1.
Proof.
  split; [lia|].
  exact (proj1 (proj2 (fn_key_table_round_trip x86_64 1 [] ltac:(lia)))).
Defined.

(** ** Plain keys against escape codes *)

Lemma fn_key_sequences_range i :
  0 <= i < 12 -> 256 <= tfb_fn_key_sequences i < 2 ^ 63.
Proof.
  intros Hi.
  assert (H : i = 0 \/ i = 1 \/ i = 2 \/ i = 3 \/ i = 4 \/ i = 5 \/ i = 6 \/
              i = 7 \/ i = 8 \/ i = 9 \/ i = 10 \/ i = 11) by lia.
  repeat (destruct H as [-> | H]); try subst i; vm_compute; split; congruence.
Qed.

(** The code of a complete escape sequence. *)
Lemma escape_code_range mids t :
  complete mids t ->
  256 <= le_bytes (pad8 (escape_sequence mids t)) < 2 ^ 63.
Proof.
  intros (Hmids & [Ht Hfin] & Hlen).
  rewrite le_bytes_pad8. unfold escape_sequence. cbn [le_bytes].
  rewrite le_bytes_app. cbn [le_bytes].
  pose proof (le_bytes_range mids (intermediate_bytes _ Hmids)) as Hr.
  assert (Hp : 256 ^ Z.of_nat (length mids) <= 256 ^ 5)
    by (apply Z.pow_le_mono_r; lia).
  assert (Ht2 : 0x40 <= t <= 0x7E).
  { unfold is_final in Hfin.
    apply andb_prop in Hfin as [Hfin _]. apply andb_prop in Hfin as [H1 H2].
    apply Z.leb_le in H1, H2. lia. }
  change (256 ^ 5) with 1099511627776 in Hp.
  change (2 ^ 63) with 9223372036854775808.
  unfold ESC, LBRACKET. nia.
Qed.

(** The code of a byte other than [ESC]. *)
Lemma plain_code_range a b rest :
  is_byte b -> b <> ESC ->
  let k := fst (tfb_read_keypress a (Some b :: rest)) in
  0 <= k < 256 \/ 2 ^ 64 - 128 <= k < 2 ^ 64.
Proof.
  intros Hb Hne. cbn zeta. unfold is_byte in Hb.
  destruct (Z_lt_le_dec b 128) as [Hlt | Hge].
  - rewrite read_keypress_ascii by (lia || exact Hne). cbn [fst]. lia.
  - destruct (char_signed a) eqn:Ea.
    + rewrite read_keypress_signed_char_high by (exact Ea || lia).
      cbn [fst]. lia.
    + rewrite read_keypress_unsigned_char
        by (exact Ea || exact Hne || (unfold is_byte; lia)).
      cbn [fst]. lia.
Qed.

(** X22: the code returned for a byte other than [ESC] is never the code
    of a complete escape sequence, and [tfb_get_fn_key_num] gives 0 for
    it: a plain key is not taken for a function key, whatever the
    signedness of [char]. *)
Theorem plain_key_is_no_escape_code a b rest :
  is_byte b -> b <> ESC ->
  let k := fst (tfb_read_keypress a (Some b :: rest)) in
  tfb_get_fn_key_num k = 0 /\
  forall mids t,
    complete mids t -> k <> le_bytes (pad8 (escape_sequence mids t)).
Proof.
  intros Hb Hne. cbn zeta.
  pose proof (plain_code_range a b rest Hb Hne) as Hk. cbn zeta in Hk.
  split.
  - unfold tfb_get_fn_key_num.
    destruct (fn_key_search_spec
                (fst (tfb_read_keypress a (Some b :: rest))) 12 0)
      as [[H0 _] | (Hr & Hseq & _)]; cbn zeta in *; [exact H0|].
    exfalso.
    pose proof (fn_key_sequences_range
                  (fn_key_search 12 0
                     (fst (tfb_read_keypress a (Some b :: rest))) - 1)
                  ltac:(lia)) as Hrange.
    rewrite Hseq in Hrange. lia.
  - intros mids t Hc Heq.
    pose proof (escape_code_range mids t Hc) as Hrange.
    rewrite <- Heq in Hrange. lia.
Qed.

Lemma plain_key_is_no_escape_code_witness :
  is_byte 0xC3 /\ 0xC3 <> ESC /\
  tfb_get_fn_key_num (fst (tfb_read_keypress x86_64 [Some 0xC3])) = 0.
Proof.
  assert (Hb : is_byte 0xC3) by (unfold is_byte; lia).
  assert (Hne : 0xC3 <> ESC) by discriminate.
  split; [exact Hb | split; [exact Hne|]].
  exact (proj1 (plain_key_is_no_escape_code x86_64 0xC3 [] Hb Hne)).
Defined.

End KeyboardFacts.

(* ===================================================================== *)
(** * Properties: session acquisition *)
(* ===================================================================== *)

Module AcquireFacts.

Import Viewport Release Acquire.

Lemma out_failure ret s win md fmt :
  ret <> TFB_SUCCESS ->
  out ret s win md fmt =
    (ret, {| session := s; window := win; mode := md; format := fmt |},
     fst (tfb_release_fb s)).
Proof. intros H. destruct ret; try reflexivity. contradiction. Qed.

(** Teardown closes the device descriptor of a session that has one. *)
Lemma release_closes_fbfd s : fbfd s <> -1 -> Close (fbfd s) ∈ fst (tfb_release_fb s).
Proof.
  intros H. unfold tfb_release_fb. cbn [fst].
  apply Z.eqb_neq in H. rewrite H. cbn [negb].
  rewrite !elem_of_app. do 3 right. apply list_elem_of_singleton. reflexivity.
Qed.

Lemma release_resets_tty s :
  ttyfd s <> -1 ->
  IoctlKdSetModeText (ttyfd s) ∈ fst (tfb_release_fb s) /\
  Close (ttyfd s) ∈ fst (tfb_release_fb s).
Proof.
  intros H. unfold tfb_release_fb. cbn [fst].
  apply Z.eqb_neq in H. rewrite H. cbn [negb].
  rewrite !elem_of_app.
  split; do 2 right; left; rewrite !elem_of_cons; tauto.
Qed.

Lemma release_unmaps s :
  __fb_real_buffer s <> 0 ->
  Munmap (__fb_real_buffer s) (__fb_size s) ∈ fst (tfb_release_fb s).
Proof.
  intros H. unfold tfb_release_fb. cbn [fst].
  apply Z.eqb_neq in H. rewrite H. cbn [negb].
  rewrite !elem_of_app. left. apply list_elem_of_singleton. reflexivity.
Qed.

Section Acquisition.

Variable a : abi.
Variables NO_TTY SHADOW : Z.

(** What a run of [acquire_buffers] that succeeds has done. *)
Lemma acquire_buffers_success flags o s win md fmt g' calls :
  acquire_buffers SHADOW flags o s win md fmt = (TFB_SUCCESS, g', calls) ->
  let real := os_mmap o (__fb_size s) (fbfd s) in
  let buf := if flag_set flags SHADOW then os_malloc o (__fb_size s) else real in
  let s' := set_screen (xres md) (yres md) (set_buffer buf (set_real_buffer real s)) in
  real <> MAP_FAILED /\
  (flag_set flags SHADOW = true -> buf <> 0) /\
  g' = {| session := s';
          window := snd (tfb_set_window s' 0 0 (xres md) (yres md) win);
          mode := md; format := format_of md |} /\
  calls = [].
Proof.
  unfold acquire_buffers. cbn zeta.
  cbn [__fb_real_buffer set_real_buffer __fb_size fbfd].
  destruct (os_mmap o (__fb_size s) (fbfd s) =? MAP_FAILED) eqn:Emap.
  { rewrite out_failure by discriminate. discriminate. }
  apply Z.eqb_neq in Emap.
  destruct (flag_set flags SHADOW) eqn:Esh; cbn [andb].
  - cbn [__fb_buffer set_buffer].
    destruct (os_malloc o (__fb_size s) =? 0) eqn:Emal.
    { rewrite out_failure by discriminate. discriminate. }
    apply Z.eqb_neq in Emal.
    unfold out. intros [= <- <-]. auto.
  - unfold out. intros [= <- <-].
    split; [exact Emap | split; [discriminate | split; reflexivity]].
Qed.

Ltac acq_step :=
  match goal with
  | |- context [match os_fscreeninfo ?o with _ => _ end] =>
      destruct (os_fscreeninfo o) as [?pitch|] eqn:?
  | |- context [match os_vscreeninfo ?o with _ => _ end] =>
      destruct (os_vscreeninfo o) as [[?off ?md]|] eqn:?
  | |- context [if ?c then _ else _] => destruct c eqn:?
  end.

(** What a run of [tfb_acquire_fb] that succeeds has gone through. *)
Lemma acquire_success flags fb_device tty_device o g g' calls :
  tfb_acquire_fb a NO_TTY SHADOW flags fb_device tty_device o g
    = (TFB_SUCCESS, g', calls) ->
  exists pitch off md,
    os_fscreeninfo o = Some pitch /\
    os_vscreeninfo o = Some (off, md) /\
    0 <= os_open_fb o (default DEFAULT_FB_DEVICE fb_device) /\
    bits_per_pixel md = 32 /\
    check_fb_assumptions md = true /\
    (flag_set flags NO_TTY = false ->
       0 <= os_open_tty o (default DEFAULT_TTY_DEVICE tty_device) /\
       os_kd_graphics o = 0) /\
    acquire_buffers SHADOW flags o
      (prepared a NO_TTY flags fb_device tty_device o g off md)
      (window g) md (format g) = (TFB_SUCCESS, g', calls).
Proof.
  unfold tfb_acquire_fb, prepared. cbn zeta.
  cbn [fbfd set_fbfd ttyfd set_ttyfd set_geometry].
  destruct (os_open_fb o (default DEFAULT_FB_DEVICE fb_device) <? 0) eqn:Efd.
  { rewrite out_failure by discriminate. discriminate. }
  apply Z.ltb_ge in Efd.
  destruct (os_fscreeninfo o) as [pitch|] eqn:Efix;
    [|rewrite out_failure by discriminate; discriminate].
  destruct (os_vscreeninfo o) as [[off md]|] eqn:Evar;
    [|rewrite out_failure by discriminate; discriminate].
  destruct (bits_per_pixel md =? 32) eqn:Ebpp; cbn [negb];
    [|rewrite out_failure by discriminate; discriminate].
  apply Z.eqb_eq in Ebpp.
  destruct (check_fb_assumptions md) eqn:Echk; cbn [negb];
    [|rewrite out_failure by discriminate; discriminate].
  destruct (flag_set flags NO_TTY) eqn:Ent; cbn [negb].
  - intros H. exists pitch, off, md. cbn [default].
    repeat (split; [first [reflexivity | assumption | discriminate]|]).
    exact H.
  - destruct (os_open_tty o (default DEFAULT_TTY_DEVICE tty_device) <? 0)
      eqn:Etty.
    { rewrite out_failure by discriminate. discriminate. }
    apply Z.ltb_ge in Etty.
    destruct (os_kd_graphics o =? 0) eqn:Ekd; cbn [negb];
      [|rewrite out_failure by discriminate; discriminate].
    apply Z.eqb_eq in Ekd.
    intros H. exists pitch, off, md. cbn [default].
    repeat (split; [first [reflexivity | assumption | (intros _; split; assumption)]|]).
    exact H.
Qed.

(** Whatever the outcome, the calls reported are those of a teardown of
    the final session, unless the acquisition succeeded. *)
Lemma acquire_failure_teardown flags fb_device tty_device o g ret g' calls :
  tfb_acquire_fb a NO_TTY SHADOW flags fb_device tty_device o g
    = (ret, g', calls) ->
  ret <> TFB_SUCCESS ->
  calls = fst (tfb_release_fb (session g')).
Proof.
  unfold tfb_acquire_fb, acquire_buffers. cbn zeta.
  repeat acq_step; cbn [out]; intros [= <- <- <-] Hret;
    first [reflexivity | contradiction].
Qed.

(** The device descriptor of the final session is the one [open] gave. *)
Lemma acquire_fbfd flags fb_device tty_device o g ret g' calls :
  tfb_acquire_fb a NO_TTY SHADOW flags fb_device tty_device o g
    = (ret, g', calls) ->
  fbfd (session g') = os_open_fb o (default DEFAULT_FB_DEVICE fb_device) /\
  (ret <> TFB_ERROR_OPEN_FB -> 0 <= fbfd (session g')).
Proof.
  unfold tfb_acquire_fb, acquire_buffers. cbn zeta.
  cbn [fbfd set_fbfd].
  destruct (os_open_fb o (default DEFAULT_FB_DEVICE fb_device) <? 0) eqn:Efd.
  - cbn [out]. intros [= <- <- <-]. split; [reflexivity | congruence].
  - apply Z.ltb_ge in Efd.
    repeat acq_step; cbn [out]; intros [= <- <- <-];
      (split; [reflexivity | intros _; exact Efd]).
Qed.

(** The globals after a successful acquisition, in full. *)
Lemma acquire_success_globals flags fb_device tty_device o g g' calls :
  tfb_acquire_fb a NO_TTY SHADOW flags fb_device tty_device o g
    = (TFB_SUCCESS, g', calls) ->
  exists pitch off md,
    os_fscreeninfo o = Some pitch /\
    os_vscreeninfo o = Some (off, md) /\
    bits_per_pixel md = 32 /\
    check_fb_assumptions md = true /\
    (flag_set flags NO_TTY = false ->
       0 <= os_open_tty o (default DEFAULT_TTY_DEVICE tty_device) /\
       os_kd_graphics o = 0) /\
    let s := prepared a NO_TTY flags fb_device tty_device o g off md in
    let real := os_mmap o (__fb_size s) (fbfd s) in
    let buf :=
      if flag_set flags SHADOW then os_malloc o (__fb_size s) else real in
    let s' :=
      set_screen (xres md) (yres md) (set_buffer buf (set_real_buffer real s)) in
    real <> MAP_FAILED /\
    (flag_set flags SHADOW = true -> buf <> 0) /\
    g' = {| session := s';
            window := snd (tfb_set_window s' 0 0 (xres md) (yres md) (window g));
            mode := md; format := format_of md |} /\
    calls = [].
Proof.
  intros H.
  apply acquire_success in H
    as (pitch & off & md & Hfix & Hvar & _ & Hbpp & Hchk & Htty & H).
  apply acquire_buffers_success in H.
  exists pitch, off, md. auto 10.
Qed.

Lemma prepared_fields flags fb_device tty_device o g off md :
  let s := prepared a NO_TTY flags fb_device tty_device o g off md in
  __fbi s = off /\
  __fb_pitch s = default 0 (os_fscreeninfo o) /\
  __fb_pitch_div4 s = Z.shiftr (default 0 (os_fscreeninfo o)) 2 /\
  __fb_size s = wrap (size_width a) (default 0 (os_fscreeninfo o) * yres md) /\
  fbfd s = os_open_fb o (default DEFAULT_FB_DEVICE fb_device) /\
  ttyfd s =
    (if flag_set flags NO_TTY then ttyfd (session g)
     else os_open_tty o (default DEFAULT_TTY_DEVICE tty_device)).
Proof.
  unfold prepared. cbn zeta.
  destruct (flag_set flags NO_TTY); cbn; auto 10.
Qed.

Lemma acquire_window flags fb_device tty_device o g g' calls :
  (forall off md, os_vscreeninfo o = Some (off, md) -> u32_mode off md) ->
  tfb_acquire_fb a NO_TTY SHADOW flags fb_device tty_device o g
    = (TFB_SUCCESS, g', calls) ->
  __fb_screen_w (session g') = xres (mode g') /\
  __fb_screen_h (session g') = yres (mode g') /\
  window g' = screen_window (session g').
Proof.
  intros Hu32 H.
  apply acquire_success_globals in H
    as (pitch & off & md & _ & Hvar & _ & _ & _ & H).
  cbn zeta in H. destruct H as (_ & _ & -> & _).
  destruct (Hu32 off md Hvar) as (Hx & Hy & Hxo & Hyo).
  pose proof (prepared_fields flags fb_device tty_device o g off md)
    as (Hfbi & _).
  cbn [session mode window].
  split; [reflexivity | split; [reflexivity|]].
  rewrite ViewportFacts.set_window_fits.
  - unfold screen_window. cbn [snd].
    cbn [__fbi __fb_screen_w __fb_screen_h set_screen set_buffer
         set_real_buffer].
    rewrite Hfbi. rewrite !Z.add_0_r.
    rewrite !(u32_small (xoffset off)), !(u32_small (yoffset off))
      by assumption.
    reflexivity.
  - unfold u32_args, is_u32 in *. lia.
  - unfold u32_screen.
    cbn [__fbi __fb_screen_w __fb_screen_h set_screen set_buffer
         set_real_buffer].
    rewrite Hfbi. auto.
  - cbn. lia.
  - cbn. lia.
Qed.

(** X1: a successful acquisition always ends with the window covering
    the whole screen at the base offset of the device: the
    [tfb_set_window] call it makes cannot be refused. *)
Theorem acquire_installs_full_window flags fb_device tty_device o g g' calls :
  (forall off md, os_vscreeninfo o = Some (off, md) -> u32_mode off md) ->
  tfb_acquire_fb a NO_TTY SHADOW flags fb_device tty_device o g
    = (TFB_SUCCESS, g', calls) ->
  __fb_screen_w (session g') = xres (mode g') /\
  __fb_screen_h (session g') = yres (mode g') /\
  window g' = screen_window (session g').
Proof. apply acquire_window. Qed.

(** X2: what holds of the session after a successful acquisition: the
    device descriptor is the one [open] returned and is not negative, the
    mapping is not [MAP_FAILED], the stride, its quarter and the size
    agree, the mode has 32 bits per pixel with no channel stored most
    significant bit first, the buffer is the mapping itself unless a
    shadow buffer was asked for, in which case it is the non-null
    allocation, the terminal was opened unless the caller opted out, and
    no teardown call was made. *)
Theorem acquire_success_session flags fb_device tty_device o g g' calls :
  tfb_acquire_fb a NO_TTY SHADOW flags fb_device tty_device o g
    = (TFB_SUCCESS, g', calls) ->
  let s := session g' in
  fbfd s = os_open_fb o (default DEFAULT_FB_DEVICE fb_device) /\
  0 <= fbfd s /\
  __fb_real_buffer s <> MAP_FAILED /\
  Some (__fb_pitch s) = os_fscreeninfo o /\
  __fb_pitch_div4 s = Z.shiftr (__fb_pitch s) 2 /\
  __fb_size s = wrap (size_width a) (__fb_pitch s * yres (mode g')) /\
  bits_per_pixel (mode g') = 32 /\
  bf_msb_right (red (mode g')) = 0 /\
  bf_msb_right (green (mode g')) = 0 /\
  bf_msb_right (blue (mode g')) = 0 /\
  (flag_set flags SHADOW = false -> __fb_buffer s = __fb_real_buffer s) /\
  (flag_set flags SHADOW = true ->
     __fb_buffer s = os_malloc o (__fb_size s) /\ __fb_buffer s <> 0) /\
  (flag_set flags NO_TTY = false ->
     ttyfd s = os_open_tty o (default DEFAULT_TTY_DEVICE tty_device) /\
     0 <= ttyfd s) /\
  (flag_set flags NO_TTY = true -> ttyfd s = ttyfd (session g)) /\
  calls = [].
Proof.
  intros H. pose proof (acquire_fbfd _ _ _ _ _ _ _ _ H) as [Hfd Hfd0].
  apply acquire_success_globals in H
    as (pitch & off & md & Hfix & Hvar & Hbpp & Hchk & Htty & H).
  cbn zeta in H. destruct H as (Hmap & Hbuf & -> & ->).
  pose proof (prepared_fields flags fb_device tty_device o g off md)
    as (Hfbi & Hpitch & Hdiv & Hsize & Hfbfd & Httyfd).
  rewrite Hfix in Hpitch, Hdiv, Hsize. cbn [default] in Hpitch, Hdiv, Hsize.
  unfold check_fb_assumptions in Hchk.
  apply andb_prop in Hchk as [Hchk Hb]. apply andb_prop in Hchk as [Hr Hg].
  apply Z.eqb_eq in Hr, Hg, Hb.
  cbn zeta.
  cbn [session mode fbfd __fb_real_buffer __fb_pitch __fb_pitch_div4
       __fb_size __fb_buffer ttyfd set_screen set_buffer set_real_buffer]
    in Hfd, Hfd0 |- *.
  rewrite Hsize in Hmap, Hbuf.
  rewrite Hpitch, Hdiv, Hsize.
  split; [exact Hfd|].
  split; [apply Hfd0; discriminate|].
  split; [exact Hmap|].
  split; [symmetry; exact Hfix|].
  repeat (split; [first [assumption | reflexivity]|]).
  split.
  { intros E. rewrite E. reflexivity. }
  split.
  { intros E. rewrite E in Hbuf |- *. split; [reflexivity | exact (Hbuf eq_refl)]. }
  split.
  { intros E. rewrite Httyfd, E. split; [reflexivity | exact (proj1 (Htty E))]. }
  split.
  { intros E. rewrite Httyfd, E. reflexivity. }
  reflexivity.
Qed.

(** Where the terminal descriptor and the mapping of the final session
    come from. *)
Lemma acquire_final_fields flags fb_device tty_device o g ret g' calls :
  tfb_acquire_fb a NO_TTY SHADOW flags fb_device tty_device o g
    = (ret, g', calls) ->
  (flag_set flags NO_TTY = true -> ttyfd (session g') = ttyfd (session g)) /\
  (ttyfd (session g') = ttyfd (session g) \/
   ttyfd (session g') = os_open_tty o (default DEFAULT_TTY_DEVICE tty_device)) /\
  (flag_set flags NO_TTY = false ->
   ret = TFB_ERROR_TTY_GRAPHIC_MODE \/ ret = TFB_MMAP_FB_ERROR \/
   ret = TFB_OUT_OF_MEMORY \/ ret = TFB_SUCCESS ->
   ttyfd (session g') = os_open_tty o (default DEFAULT_TTY_DEVICE tty_device) /\
   0 <= ttyfd (session g')) /\
  (ret = TFB_MMAP_FB_ERROR -> __fb_real_buffer (session g') = MAP_FAILED).
Proof.
  unfold tfb_acquire_fb, acquire_buffers. cbn zeta.
  cbn [fbfd ttyfd __fb_size __fb_real_buffer __fb_buffer
       set_fbfd set_ttyfd set_geometry set_real_buffer set_buffer set_screen].
  destruct (flag_set flags NO_TTY) eqn:Ent; cbn [negb];
    repeat acq_step; cbn [out]; intros [= <- <- <-];
    cbn [session fbfd ttyfd __fb_size __fb_real_buffer __fb_buffer
         set_fbfd set_ttyfd set_geometry set_real_buffer set_buffer
         set_screen];
    repeat match goal with
           | H : (_ <? 0) = false |- _ => apply Z.ltb_ge in H
           | H : (_ =? _) = true |- _ => apply Z.eqb_eq in H
           end;
    (split; [intros; first [reflexivity | discriminate]|]);
    (split; [first [left; reflexivity | right; reflexivity]|]);
    (split; [intros ? [?|[?|[?|?]]];
             first [discriminate | split; [reflexivity | assumption]]|]);
    intros ?; first [discriminate | assumption].
Qed.

(** X3: when an acquisition fails after the device was opened, the
    teardown closes the device descriptor; and an acquisition that starts
    from the initial globals closes no descriptor other than the two it
    opened itself. *)
Theorem acquire_failure_closes_what_it_opened
  flags fb_device tty_device o g ret g' calls :
  tfb_acquire_fb a NO_TTY SHADOW flags fb_device tty_device o g
    = (ret, g', calls) ->
  ret <> TFB_SUCCESS ->
  (0 <= os_open_fb o (default DEFAULT_FB_DEVICE fb_device) ->
     Close (os_open_fb o (default DEFAULT_FB_DEVICE fb_device)) ∈ calls) /\
  (pristine (session g) ->
     forall fd, Close fd ∈ calls ->
       fd = os_open_fb o (default DEFAULT_FB_DEVICE fb_device) \/
       fd = os_open_tty o (default DEFAULT_TTY_DEVICE tty_device)).
Proof.
  intros H Hret.
  pose proof (acquire_failure_teardown _ _ _ _ _ _ _ _ H Hret) as ->.
  pose proof (acquire_fbfd _ _ _ _ _ _ _ _ H) as [Hfd _].
  pose proof (acquire_final_fields _ _ _ _ _ _ _ _ H) as (_ & Htty & _).
  split.
  - intros Hopen. rewrite <- Hfd. apply release_closes_fbfd. lia.
  - intros (_ & _ & Hp & _) fd Hin.
    apply ReleaseFacts.release_calls in Hin.
    destruct Hin as [[Hin _]|[[Hin _]|[[[Hin|Hin] Hne]|[Hin _]]]];
      try discriminate; injection Hin as ->.
    + destruct Htty as [Htty|Htty]; [congruence | right; exact Htty].
    + left. exact Hfd.
Qed.

(** X4: when the terminal was opened and the acquisition fails at that
    point or later, the teardown puts the terminal back into text mode
    and closes it. *)
Theorem acquire_failure_resets_terminal
  flags fb_device tty_device o g ret g' calls :
  tfb_acquire_fb a NO_TTY SHADOW flags fb_device tty_device o g
    = (ret, g', calls) ->
  flag_set flags NO_TTY = false ->
  ret = TFB_ERROR_TTY_GRAPHIC_MODE \/ ret = TFB_MMAP_FB_ERROR \/
  ret = TFB_OUT_OF_MEMORY ->
  IoctlKdSetModeText (os_open_tty o (default DEFAULT_TTY_DEVICE tty_device))
    ∈ calls /\
  Close (os_open_tty o (default DEFAULT_TTY_DEVICE tty_device)) ∈ calls.
Proof.
  intros H Hflag Hret.
  assert (Hne : ret <> TFB_SUCCESS) by (destruct Hret as [->|[->| ->]]; discriminate).
  pose proof (acquire_failure_teardown _ _ _ _ _ _ _ _ H Hne) as ->.
  pose proof (acquire_final_fields _ _ _ _ _ _ _ _ H) as (_ & _ & Htty & _).
  destruct (Htty Hflag) as [Heq Hpos]; [tauto|].
  rewrite <- Heq. apply release_resets_tty. lia.
Qed.

(** X5: when [mmap] fails, the teardown still calls [munmap], on the
    [MAP_FAILED] pointer: its guard only tests for [NULL]. *)
Theorem acquire_mmap_failure_unmaps_map_failed
  flags fb_device tty_device o g g' calls :
  tfb_acquire_fb a NO_TTY SHADOW flags fb_device tty_device o g
    = (TFB_MMAP_FB_ERROR, g', calls) ->
  Munmap MAP_FAILED (__fb_size (session g')) ∈ calls.
Proof.
  intros H.
  pose proof (acquire_failure_teardown _ _ _ _ _ _ _ _ H ltac:(discriminate))
    as ->.
  pose proof (acquire_final_fields _ _ _ _ _ _ _ _ H) as (_ & _ & _ & Hmap).
  rewrite <- (Hmap eq_refl). apply release_unmaps.
  rewrite (Hmap eq_refl). discriminate.
Qed.

Lemma acquire_buffers_calls_no_terminal flags o s :
  Forall (fun c => terminal_call c = false)
    (acquire_buffers_calls SHADOW flags o s).
Proof.
  unfold acquire_buffers_calls.
  destruct (os_mmap o (__fb_size s) (fbfd s) =? MAP_FAILED);
    [|destruct (flag_set flags SHADOW)];
    repeat constructor.
Qed.

(** The calls that a successful acquisition makes on the terminal when
    the opt-out flag is clear. *)
Lemma acquire_opens_terminal flags fb_device tty_device o g g' calls :
  tfb_acquire_fb a NO_TTY SHADOW flags fb_device tty_device o g
    = (TFB_SUCCESS, g', calls) ->
  flag_set flags NO_TTY = false ->
  OpenTerminal (default DEFAULT_TTY_DEVICE tty_device)
    ∈ tfb_acquire_fb_calls a NO_TTY SHADOW flags fb_device tty_device o g /\
  IoctlKdSetModeGraphics (ttyfd (session g'))
    ∈ tfb_acquire_fb_calls a NO_TTY SHADOW flags fb_device tty_device o g.
Proof.
  intros H Hflag.
  pose proof (acquire_final_fields _ _ _ _ _ _ _ _ H) as (_ & _ & Htty & _).
  destruct (Htty Hflag) as [-> _]; [tauto|].
  apply acquire_success in H
    as (pitch & off & md & Hfix & Hvar & Hfd & Hbpp & Hchk & Hopen & _).
  destruct (Hopen Hflag) as [Hto Hkd].
  unfold tfb_acquire_fb_calls. cbn zeta.
  replace (os_open_fb o (default DEFAULT_FB_DEVICE fb_device) <? 0)
    with false by (symmetry; apply Z.ltb_ge; exact Hfd).
  rewrite Hfix, Hvar, Hbpp, Hchk, Hflag. cbn [Z.eqb Pos.eqb negb].
  replace (os_open_tty o (default DEFAULT_TTY_DEVICE tty_device) <? 0)
    with false by (symmetry; apply Z.ltb_ge; exact Hto).
  rewrite !elem_of_cons. split; auto 10.
Qed.

(** X6: with the terminal opt-out flag [tfb_acquire_fb] leaves the
    terminal descriptor as it was, whatever the outcome, and none of the
    calls it makes is on the terminal: it neither opens it nor switches
    it to graphics mode; and when it starts without a terminal, its
    teardown neither resets nor closes one: the only descriptor the
    teardown can close is that of the device. *)
Theorem acquire_no_tty_leaves_terminal
  flags fb_device tty_device o g ret g' calls :
  tfb_acquire_fb a NO_TTY SHADOW flags fb_device tty_device o g
    = (ret, g', calls) ->
  flag_set flags NO_TTY = true ->
  ttyfd (session g') = ttyfd (session g) /\
  Forall (fun c => terminal_call c = false)
    (tfb_acquire_fb_calls a NO_TTY SHADOW flags fb_device tty_device o g) /\
  (ttyfd (session g) = -1 ->
     forall fd, (IoctlKdSetModeText fd ∉ calls) /\
                (Close fd ∈ calls -> fd = fbfd (session g'))).
Proof.
  intros H Hflag.
  pose proof (acquire_final_fields _ _ _ _ _ _ _ _ H) as (Htty & _).
  specialize (Htty Hflag). split; [exact Htty|].
  split.
  { unfold tfb_acquire_fb_calls. cbn zeta. rewrite Hflag. cbn [negb].
    pose proof (acquire_buffers_calls_no_terminal flags o) as Hbuf.
    apply Forall_cons_2; [reflexivity|].
    destruct (os_open_fb o (default DEFAULT_FB_DEVICE fb_device) <? 0);
      [constructor|].
    apply Forall_cons_2; [reflexivity|].
    destruct (os_fscreeninfo o) as [pitch|]; [|constructor].
    apply Forall_cons_2; [reflexivity|].
    destruct (os_vscreeninfo o) as [[off md]|]; [|constructor].
    destruct (negb (bits_per_pixel md =? 32)); [constructor|].
    destruct (negb (check_fb_assumptions md)); [constructor|].
    apply Hbuf. }
  intros Hno fd.
  assert (Hdec : ret = TFB_SUCCESS \/ ret <> TFB_SUCCESS)
    by (destruct ret; first [left; reflexivity | right; discriminate]).
  destruct Hdec as [-> | Hret].
  - apply acquire_success_globals in H
      as (? & ? & ? & _ & _ & _ & _ & _ & H).
    cbn zeta in H. destruct H as (_ & _ & _ & ->).
    split; [apply not_elem_of_nil | intros Hin; apply elem_of_nil in Hin; contradiction].
  - pose proof (acquire_failure_teardown _ _ _ _ _ _ _ _ H Hret) as ->.
    split.
    + intros Hin. apply ReleaseFacts.release_calls in Hin.
      destruct Hin as [[Hin _]|[[Hin _]|[[[Hin|Hin] Hne]|[Hin _]]]];
        try discriminate. congruence.
    + intros Hin. apply ReleaseFacts.release_calls in Hin.
      destruct Hin as [[Hin _]|[[Hin _]|[[[Hin|Hin] Hne]|[Hin _]]]];
        try discriminate; [congruence | injection Hin as ->; reflexivity].
Qed.

(** The buffers of the session after a successful acquisition. *)
Lemma acquire_buffers_fields flags fb_device tty_device o g g' calls :
  tfb_acquire_fb a NO_TTY SHADOW flags fb_device tty_device o g
    = (TFB_SUCCESS, g', calls) ->
  (flag_set flags SHADOW = false ->
     __fb_buffer (session g') = __fb_real_buffer (session g')) /\
  exists pitch,
    os_fscreeninfo o = Some pitch /\
    __fb_pitch (session g') = pitch /\
    __fb_pitch_div4 (session g') = Z.shiftr pitch 2 /\
    __fb_size (session g') = wrap (size_width a) (pitch * yres (mode g')).
Proof.
  intros H.
  apply acquire_success_globals in H
    as (pitch & off & md & Hfix & _ & _ & _ & _ & H).
  cbn zeta in H. destruct H as (_ & _ & -> & _).
  pose proof (prepared_fields flags fb_device tty_device o g off md)
    as (_ & Hpitch & Hdiv & Hsize & _).
  rewrite Hfix in Hpitch, Hdiv, Hsize. cbn [default] in Hpitch, Hdiv, Hsize.
  cbn [session mode __fb_real_buffer __fb_pitch __fb_pitch_div4
       __fb_size __fb_buffer set_screen set_buffer set_real_buffer].
  split.
  - intros E. rewrite E. reflexivity.
  - exists pitch. auto.
Qed.

(** X7: releasing a successfully acquired session makes exactly one call
    for each resource the acquisition obtained, in this order: unmap the
    mapping, free the shadow buffer if there is one, put the terminal
    back into text mode and close it if it was opened, close the
    device. *)
Theorem acquire_then_release flags fb_device tty_device o g g' calls :
  tfb_acquire_fb a NO_TTY SHADOW flags fb_device tty_device o g
    = (TFB_SUCCESS, g', calls) ->
  __fb_real_buffer (session g') <> 0 ->
  (flag_set flags SHADOW = true ->
     __fb_buffer (session g') <> __fb_real_buffer (session g')) ->
  (flag_set flags NO_TTY = true -> ttyfd (session g) = -1) ->
  let s := session g' in
  fst (tfb_release_fb s) =
    [Munmap (__fb_real_buffer s) (__fb_size s)] ++
    (if flag_set flags SHADOW then [Free (__fb_buffer s)] else []) ++
    (if flag_set flags NO_TTY then []
     else [IoctlKdSetModeText (ttyfd s); Close (ttyfd s)]) ++
    [Close (fbfd s)].
Proof.
  intros H Hreal Hshadow Hnotty. cbn zeta.
  pose proof (acquire_fbfd _ _ _ _ _ _ _ _ H) as [_ Hfd].
  specialize (Hfd ltac:(discriminate)).
  pose proof (acquire_final_fields _ _ _ _ _ _ _ _ H) as (Hkeep & _ & Htty & _).
  pose proof (acquire_buffers_fields _ _ _ _ _ _ _ H) as (Halias & _).
  unfold tfb_release_fb. cbn [fst].
  replace (__fb_real_buffer (session g') =? 0) with false
    by (symmetry; apply Z.eqb_neq; exact Hreal).
  replace (fbfd (session g') =? -1) with false
    by (symmetry; apply Z.eqb_neq; lia).
  cbn [negb].
  f_equal. f_equal.
  - destruct (flag_set flags SHADOW).
    + replace (__fb_buffer (session g') =? __fb_real_buffer (session g'))
        with false by (symmetry; apply Z.eqb_neq; auto).
      reflexivity.
    + rewrite Halias by reflexivity. rewrite Z.eqb_refl. reflexivity.
  - f_equal. destruct (flag_set flags NO_TTY).
    + rewrite Hkeep, Hnotty by reflexivity. reflexivity.
    + destruct (Htty eq_refl) as [_ Hpos]; [tauto|].
      replace (ttyfd (session g') =? -1) with false
        by (symmetry; apply Z.eqb_neq; lia).
      reflexivity.
Qed.

(** X8: after an acquisition without shadow buffer the buffer is the
    mapping itself, so flushing any window makes no copy and leaves the
    memory as it is. *)
Theorem acquire_zero_copy_flush_is_noop
  flags fb_device tty_device o g g' calls :
  tfb_acquire_fb a NO_TTY SHADOW flags fb_device tty_device o g
    = (TFB_SUCCESS, g', calls) ->
  flag_set flags SHADOW = false ->
  __fb_buffer (session g') = __fb_real_buffer (session g') /\
  forall a' win m,
    Compositor.tfb_flush_window a' (session g') win = [] /\
    Compositor.flush a' (session g') win m = m.
Proof.
  intros H Hflag.
  pose proof (acquire_buffers_fields _ _ _ _ _ _ _ H) as (Halias & _).
  specialize (Halias Hflag). split; [exact Halias|].
  intros a' win m.
  unfold Compositor.flush, Compositor.tfb_flush_window.
  rewrite Halias, Z.eqb_refl. split; reflexivity.
Qed.

(** X9: after an acquisition with a shadow buffer on a device whose
    stride is a multiple of four that holds a whole line of the screen,
    with no vertical offset and a mapping below 4 GiB, the window
    installed can be flushed, and the flush copies the whole screen:
    [xres * yres * 4] bytes. *)
Theorem acquire_shadow_flush_copies_screen
  flags fb_device tty_device o g g' calls :
  (forall off md, os_vscreeninfo o = Some (off, md) -> u32_mode off md) ->
  tfb_acquire_fb a NO_TTY SHADOW flags fb_device tty_device o g
    = (TFB_SUCCESS, g', calls) ->
  let s := session g' in
  let md := mode g' in
  __fb_buffer s <> __fb_real_buffer s ->
  (__fb_buffer s + __fb_size s <= __fb_real_buffer s \/
   __fb_real_buffer s + __fb_size s <= __fb_buffer s) ->
  __fb_pitch s mod 4 = 0 ->
  __fb_pitch s * yres md < 2 ^ 32 ->
  4 * (xoffset (__fbi s) + xres md) <= __fb_pitch s < 2 ^ 32 ->
  yoffset (__fbi s) = 0 ->
  Compositor.shadow_session_ok s (window g') /\
  Compositor.bytes_copied (Compositor.tfb_flush_window a s (window g'))
    = xres md * yres md * 4.
Proof.
  intros Hu32 H. cbn zeta. intros Hne Hdisj Hmod Hsz Hcols Hyo.
  pose proof (acquire_window _ _ _ _ _ _ _ Hu32 H) as (Hw & Hh & Hwin).
  pose proof (acquire_buffers_fields _ _ _ _ _ _ _ H)
    as (_ & pitch & _ & Hpitch & Hdiv & Hsize).
  assert (Hmode : u32_mode (__fbi (session g')) (mode g')).
  { apply acquire_success_globals in H
      as (? & off & md & _ & Hvar & _ & _ & _ & H).
    cbn zeta in H. destruct H as (_ & _ & -> & _).
    pose proof (prepared_fields flags fb_device tty_device o g off md)
      as (Hfbi & _).
    cbn [session mode __fbi set_screen set_buffer set_real_buffer].
    rewrite Hfbi. apply Hu32. exact Hvar. }
  destruct Hmode as (Hx & Hy & Hxo & Hyo').
  unfold is_u32 in *.
  subst pitch.
  rewrite wrap_small in Hsize by nia.
  assert (Hstride : __fb_pitch (session g') = 4 * __fb_pitch_div4 (session g')).
  { rewrite Hdiv, Z.shiftr_div_pow2 by lia.
    change (2 ^ 2) with 4.
    apply Z.div_exact; [lia | exact Hmod]. }
  assert (Hok : Compositor.shadow_session_ok (session g') (window g')).
  { rewrite Hwin. constructor; unfold screen_window;
      cbn [__fb_off_x __fb_off_y __fb_win_w __fb_win_h];
      rewrite ?Hw, ?Hh, ?Hyo; try assumption; try lia. }
  split; [exact Hok|].
  rewrite (CompositorFacts.flush_window_unfold a _ _ Hok).
  rewrite CompositorFacts.flush_rows_bytes.
  rewrite Hwin. unfold screen_window. cbn [__fb_win_w __fb_win_h].
  rewrite Hw, Hh. rewrite Z2Nat.id by lia. lia.
Qed.

(** X23: a device that is not in a 32 bits per pixel mode, or that
    stores a channel most significant bit first, is refused with
    [TFB_UNSUPPORTED_VIDEO_MODE], respectively [TFB_ASSUMPTION_FAILED],
    before the terminal is touched and before anything is mapped: the
    terminal descriptor and both buffer pointers are as they were, and an
    acquisition that starts from the initial globals only closes the
    device again. *)
Theorem acquire_refuses_unsupported_mode
  flags fb_device tty_device o g pitch off md :
  0 <= os_open_fb o (default DEFAULT_FB_DEVICE fb_device) ->
  os_fscreeninfo o = Some pitch ->
  os_vscreeninfo o = Some (off, md) ->
  bits_per_pixel md <> 32 \/ check_fb_assumptions md = false ->
  let r := tfb_acquire_fb a NO_TTY SHADOW flags fb_device tty_device o g in
  let s' := session (snd (fst r)) in
  fst (fst r) =
    (if bits_per_pixel md =? 32 then TFB_ASSUMPTION_FAILED
     else TFB_UNSUPPORTED_VIDEO_MODE) /\
  ttyfd s' = ttyfd (session g) /\
  __fb_real_buffer s' = __fb_real_buffer (session g) /\
  __fb_buffer s' = __fb_buffer (session g) /\
  (pristine (session g) ->
     snd r = [Close (os_open_fb o (default DEFAULT_FB_DEVICE fb_device))]).
Proof.
  intros Hfd Hfix Hvar Hbad. cbn zeta.
  unfold tfb_acquire_fb. cbn zeta. cbn [fbfd set_fbfd].
  replace (os_open_fb o (default DEFAULT_FB_DEVICE fb_device) <? 0)
    with false by (symmetry; apply Z.ltb_ge; exact Hfd).
  rewrite Hfix, Hvar.
  assert (Hrel : forall s,
            __fb_real_buffer s = 0 -> __fb_buffer s = 0 -> ttyfd s = -1 ->
            fbfd s <> -1 ->
            fst (tfb_release_fb s) = [Close (fbfd s)]).
  { intros s H1 H2 H3 H4. unfold tfb_release_fb. cbn [fst].
    rewrite H1, H2, H3. apply Z.eqb_neq in H4. rewrite H4. reflexivity. }
  destruct (bits_per_pixel md =? 32) eqn:Ebpp; cbn [negb].
  - apply Z.eqb_eq in Ebpp.
    destruct Hbad as [Hbad | Hbad]; [contradiction|].
    rewrite Hbad. cbn [negb out fst snd session ttyfd __fb_real_buffer
                       __fb_buffer set_geometry set_fbfd].
    repeat (split; [reflexivity|]).
    intros (H1 & H2 & H3 & _). rewrite Hrel; cbn; try assumption; [reflexivity | lia].
  - cbn [negb out fst snd session ttyfd __fb_real_buffer
         __fb_buffer set_geometry set_fbfd].
    repeat (split; [reflexivity|]).
    intros (H1 & H2 & H3 & _). rewrite Hrel; cbn; try assumption; [reflexivity | lia].
Qed.

End Acquisition.

(** X10: for a channel of [size] bits, at most 30, at bit [pos] that fits
    32 bits, the mask derived by the acquisition has exactly the bits
    [pos] to [pos + size - 1] set. *)
Theorem channel_mask_bits size pos i :
  0 <= size <= 30 -> 0 <= pos -> pos + size <= 32 -> 0 <= i ->
  Z.testbit (channel_mask size pos) i = (pos <=? i) && (i <? pos + size).
Proof.
  intros Hsize Hpos Hfit Hi. unfold channel_mask, u32.
  replace (Z.shiftl 1 size - 1) with (Z.ones size)
    by (unfold Z.ones; lia).
  destruct (Z_lt_le_dec i 32) as [Hlt | Hge].
  - rewrite Z.mod_pow2_bits_low by lia.
    rewrite Z.shiftl_spec by lia.
    destruct (Z_lt_le_dec i pos) as [Hip | Hip].
    + rewrite Z.testbit_neg_r by lia.
      replace (pos <=? i) with false by (symmetry; apply Z.leb_gt; lia).
      reflexivity.
    + replace (pos <=? i) with true by (symmetry; apply Z.leb_le; lia).
      cbn [andb].
      destruct (Z_lt_le_dec (i - pos) size) as [His | His].
      * rewrite Z.ones_spec_low by lia.
        symmetry. apply Z.ltb_lt. lia.
      * rewrite Z.ones_spec_high by lia.
        symmetry. apply Z.ltb_ge. lia.
  - rewrite Z.mod_pow2_bits_high by lia.
    replace (i <? pos + size) with false by (symmetry; apply Z.ltb_ge; lia).
    rewrite andb_false_r. reflexivity.
Qed.

Lemma good_run_succeeds : good_run = (TFB_SUCCESS, acquired, []).
Proof. vm_compute. reflexivity. Qed.

Lemma good_os_u32 off md :
  os_vscreeninfo good_os = Some (off, md) -> u32_mode off md.
Proof.
  intros [= <- <-]. unfold u32_mode, is_u32. cbn. lia.
Qed.

Lemma failed_run_fails :
  failed_run = (TFB_MMAP_FB_ERROR, snd (fst failed_run), snd failed_run).
Proof. vm_compute. reflexivity. Qed.

Lemma acquire_installs_full_window_witness :
  (forall off md, os_vscreeninfo good_os = Some (off, md) -> u32_mode off md) /\
  good_run = (TFB_SUCCESS, acquired, []) /\
  window acquired = screen_window (session acquired).
Proof.
  split; [exact good_os_u32 | split; [exact good_run_succeeds|]].
  exact (proj2 (proj2 (acquire_installs_full_window x86_64 1 2 2 None None
                         good_os start acquired [] good_os_u32
                         good_run_succeeds))).
Defined.

Lemma acquire_success_session_witness :
  good_run = (TFB_SUCCESS, acquired, []) /\ 0 <= fbfd (session acquired).
Proof.
  split; [exact good_run_succeeds|].
  exact (proj1 (proj2 (acquire_success_session x86_64 1 2 2 None None
                         good_os start acquired [] good_run_succeeds))).
Defined.

Lemma acquire_failure_closes_what_it_opened_witness :
  failed_run = (TFB_MMAP_FB_ERROR, snd (fst failed_run), snd failed_run) /\
  TFB_MMAP_FB_ERROR <> TFB_SUCCESS /\
  0 <= os_open_fb no_mmap_os (default DEFAULT_FB_DEVICE None) /\
  Close 3 ∈ snd failed_run.
Proof.
  assert (Hne : TFB_MMAP_FB_ERROR <> TFB_SUCCESS) by discriminate.
  assert (Hfd : 0 <= os_open_fb no_mmap_os (default DEFAULT_FB_DEVICE None))
    by (cbn; lia).
  split; [exact failed_run_fails | split; [exact Hne | split; [exact Hfd|]]].
  exact (proj1 (acquire_failure_closes_what_it_opened x86_64 1 2 2 None None
                  no_mmap_os start _ _ _ failed_run_fails Hne) Hfd).
Defined.

Lemma acquire_failure_resets_terminal_witness :
  failed_run = (TFB_MMAP_FB_ERROR, snd (fst failed_run), snd failed_run) /\
  flag_set 2 1 = false /\
  IoctlKdSetModeText 4 ∈ snd failed_run.
Proof.
  assert (Hflag : flag_set 2 1 = false) by reflexivity.
  split; [exact failed_run_fails | split; [exact Hflag|]].
  exact (proj1 (acquire_failure_resets_terminal x86_64 1 2 2 None None
                  no_mmap_os start _ _ _ failed_run_fails Hflag
                  (or_intror (or_introl eq_refl)))).
Defined.

Lemma acquire_mmap_failure_unmaps_map_failed_witness :
  failed_run = (TFB_MMAP_FB_ERROR, snd (fst failed_run), snd failed_run) /\
  Munmap MAP_FAILED 3145728 ∈ snd failed_run.
Proof.
  split; [exact failed_run_fails|].
  exact (acquire_mmap_failure_unmaps_map_failed x86_64 1 2 2 None None
           no_mmap_os start _ _ failed_run_fails).
Defined.

Lemma no_tty_run_succeeds :
  no_tty_run = (TFB_SUCCESS, snd (fst no_tty_run), snd no_tty_run).
Proof. vm_compute. reflexivity. Qed.

Lemma acquire_no_tty_leaves_terminal_witness :
  no_tty_run = (TFB_SUCCESS, snd (fst no_tty_run), snd no_tty_run) /\
  flag_set 3 1 = true /\
  ttyfd (session (snd (fst no_tty_run))) = ttyfd (session start) /\
  Forall (fun c => terminal_call c = false)
    (tfb_acquire_fb_calls x86_64 1 2 3 None None good_os start).
Proof.
  assert (Hflag : flag_set 3 1 = true) by reflexivity.
  split; [exact no_tty_run_succeeds | split; [exact Hflag|]].
  destruct (acquire_no_tty_leaves_terminal x86_64 1 2 3 None None
              good_os start _ _ _ no_tty_run_succeeds Hflag)
    as (H1 & H2 & _).
  split; [exact H1 | exact H2].
Defined.

(** The calls of the acquisition with the flag clear, for comparison:
    the terminal is opened and switched to graphics mode. *)
Example good_run_calls :
  tfb_acquire_fb_calls x86_64 1 2 2 None None good_os start =
    [OpenDevice "/dev/fb0"; IoctlFScreenInfo 3; IoctlVScreenInfo 3;
     OpenTerminal "/dev/tty"; IoctlKdSetModeGraphics 4;
     Mmap 3145728 3; Malloc 3145728].
Proof. vm_compute. reflexivity. Qed.

Lemma acquire_then_release_witness :
  good_run = (TFB_SUCCESS, acquired, []) /\
  __fb_real_buffer (session acquired) <> 0 /\
  __fb_buffer (session acquired) <> __fb_real_buffer (session acquired) /\
  fst (tfb_release_fb (session acquired)) =
    [Munmap 0x10000000 3145728; Free 0x20000000;
     IoctlKdSetModeText 4; Close 4; Close 3].
Proof.
  assert (H1 : __fb_real_buffer (session acquired) <> 0) by discriminate.
  assert (H2 : __fb_buffer (session acquired)
               <> __fb_real_buffer (session acquired)) by discriminate.
  split; [exact good_run_succeeds | split; [exact H1 | split; [exact H2|]]].
  exact (acquire_then_release x86_64 1 2 2 None None good_os start acquired []
           good_run_succeeds H1 (fun _ => H2)
           (fun E : flag_set 2 1 = true => False_ind _ (diff_false_true E))).
Defined.

Lemma zero_copy_run_succeeds :
  zero_copy_run = (TFB_SUCCESS, snd (fst zero_copy_run), snd zero_copy_run).
Proof. vm_compute. reflexivity. Qed.

Lemma acquire_zero_copy_flush_is_noop_witness :
  zero_copy_run = (TFB_SUCCESS, snd (fst zero_copy_run), snd zero_copy_run) /\
  flag_set 0 2 = false /\
  Compositor.tfb_flush_window x86_64 (session (snd (fst zero_copy_run)))
    full_window = [].
Proof.
  assert (Hflag : flag_set 0 2 = false) by reflexivity.
  split; [exact zero_copy_run_succeeds | split; [exact Hflag|]].
  exact (proj1 (proj2 (acquire_zero_copy_flush_is_noop x86_64 1 2 0 None None
                         good_os start _ _ zero_copy_run_succeeds Hflag)
                  x86_64 full_window (fun _ => 0))).
Defined.

Lemma acquire_shadow_flush_copies_screen_witness :
  good_run = (TFB_SUCCESS, acquired, []) /\
  Compositor.bytes_copied
    (Compositor.tfb_flush_window x86_64 (session acquired) (window acquired))
    = 1024 * 768 * 4.
Proof.
  split; [exact good_run_succeeds|].
  refine (proj2 (acquire_shadow_flush_copies_screen x86_64 1 2 2 None None
                   good_os start acquired [] good_os_u32 good_run_succeeds
                   _ _ _ _ _ _)); cbn; try lia; try discriminate; reflexivity.
Defined.

Lemma acquire_refuses_unsupported_mode_witness :
  0 <= os_open_fb rgb565_os (default DEFAULT_FB_DEVICE None) /\
  os_fscreeninfo rgb565_os = Some 2048 /\
  os_vscreeninfo rgb565_os = Some ({| xoffset := 0; yoffset := 0 |}, rgb565) /\
  (bits_per_pixel rgb565 <> 32 \/ check_fb_assumptions rgb565 = false) /\
  fst (fst (tfb_acquire_fb x86_64 1 2 2 None None rgb565_os start))
    = TFB_UNSUPPORTED_VIDEO_MODE.
Proof.
  assert (Hfd : 0 <= os_open_fb rgb565_os (default DEFAULT_FB_DEVICE None)).
  { cbn [os_open_fb rgb565_os]. lia. }
  assert (Hfix : os_fscreeninfo rgb565_os = Some 2048) by reflexivity.
  assert (Hvar : os_vscreeninfo rgb565_os
                 = Some ({| xoffset := 0; yoffset := 0 |}, rgb565))
    by reflexivity.
  assert (Hbad : bits_per_pixel rgb565 <> 32
                 \/ check_fb_assumptions rgb565 = false).
  { left. cbn [bits_per_pixel rgb565]. discriminate. }
  split; [exact Hfd | split; [exact Hfix | split; [exact Hvar |
    split; [exact Hbad|]]]].
  exact (proj1 (acquire_refuses_unsupported_mode x86_64 1 2 2 None None
                  rgb565_os start 2048 _ rgb565 Hfd Hfix Hvar Hbad)).
Defined.

Lemma channel_mask_bits_witness :
  0 <= 8 <= 30 /\ 0 <= 16 /\ 16 + 8 <= 32 /\ 0 <= 20 /\
  Z.testbit (channel_mask 8 16) 20 = true.
Proof.
  repeat (split; [lia|]).
  exact (channel_mask_bits 8 16 20 ltac:(lia) ltac:(lia) ltac:(lia) ltac:(lia)).
Defined.

End AcquireFacts.

(* ===================================================================== *)
(** * Properties: the compositor on the sessions the code builds *)
(* ===================================================================== *)

Module FlushLimits.

Import Viewport Compositor Acquire.

Lemma panned_run_succeeds : panned_run = (TFB_SUCCESS, panned, []).
Proof. vm_compute. reflexivity. Qed.

(** The last row that a flush of the window of [panned] copies. *)
Lemma panned_last_row :
  MemCpy (0x10000000 + 783 * 4096) (0x20000000 + 783 * 4096) 4096
    ∈ tfb_flush_window x86_64 (session panned) (window panned).
Proof.
  apply list_elem_of_lookup. exists 767%nat. vm_compute. reflexivity.
Qed.

(** C4 as stated fails: on a device panned down by sixteen lines a
    shadow acquisition succeeds, maps [pitch * yres] bytes and installs
    the window at line 16; the flush of that window copies its last
    sixteen rows from beyond the shadow buffer to beyond the mapped
    region. *)
Lemma flush_of_panned_window_leaves_buffers :
  panned_run = (TFB_SUCCESS, panned, []) /\
  __fb_buffer (session panned) <> __fb_real_buffer (session panned) /\
  ~ flush_as_stated x86_64 (session panned) (window panned).
Proof.
  split; [exact panned_run_succeeds | split; [discriminate|]].
  intros [_ Hin].
  destruct (Hin _ panned_last_row) as (_ & Hdest & _).
  vm_compute in Hdest. apply Hdest. reflexivity.
Qed.

(** So does it on a window that [tfb_set_window] accepts because the sum
    [x + w] wraps around: its width times four wraps to 0 and the flush
    copies no byte at all. *)
Lemma flush_of_wrapped_window_copies_nothing :
  tfb_set_window screen_1024x768 3221225472 0 1073741824 768 full_window
    = (TFB_SUCCESS,
       {| __fb_off_x := 3221225472; __fb_off_y := 0;
          __fb_win_w := 1073741824; __fb_win_h := 768;
          __fb_win_end_x := 0; __fb_win_end_y := 768 |}) /\
  bytes_copied
    (tfb_flush_window x86_64 screen_1024x768
       {| __fb_off_x := 3221225472; __fb_off_y := 0;
          __fb_win_w := 1073741824; __fb_win_h := 768;
          __fb_win_end_x := 0; __fb_win_end_y := 768 |}) = 0.
Proof. split; vm_compute; reflexivity. Qed.

End FlushLimits.
